(** * Bond_Optimizer: the constrained allocation engine and the scenario sweep

    A shallow embedding of [bond_optimizer/config.py], [data_io.py],
    [model.py] and [scenario.py].

    - Numbers.  The program computes with NumPy [float64] values and Python
      integers.  The engine is written once over an interface [Arith] of the
      operations it uses; the instance the program runs on is [float_arith]
      (IEEE 754 binary64, the kernel's primitive floats), and [Qc_arith]
      (canonical rationals) is the exact arithmetic it approximates.
    - Data.  A [DataFrame] is the list of its rows; a missing value (pandas'
      NaN in a column of strings) is [None].
    - Dictionaries are association lists in insertion order, updated in place
      ([dict_set]), as Python's [dict].
    - Errors.  A function that can raise returns [py_error + result].
    - The LP backend (CVXPY) is outside the repository: its attribute table
      ([cp_getattr]) and its solve call ([prob_solve]) are parameters of the
      engine. *)

From Stdlib Require Import ZArith List String Ascii Bool Lia.
From Stdlib Require Import Floats QArith Qcanon DecimalString DecimalZ.
From Stdlib Require DecimalPos.
Import ListNotations.

Close Scope Qc_scope.
Close Scope Q_scope.
Open Scope string_scope.
Open Scope list_scope.
Set Warnings "-inexact-float".

(* ================================================================== *)
(** * Arithmetic interface *)

(** The operations of Python/NumPy numbers the engine uses: [+], [*], [/],
    the conversion of a Python [int], and the comparisons [<], [<=], [==]. *)
Class Arith (num : Type) : Type := {
  nadd : num -> num -> num;
  nmul : num -> num -> num;
  ndiv : num -> num -> num;
  of_int : Z -> num;
  nltb : num -> num -> bool;
  nleb : num -> num -> bool;
  neqb : num -> num -> bool
}.

(** What NumPy adds: the missing value NaN and [ndarray.round(10)]. *)
Class NumPy (num : Type) `{Arith num} : Type := {
  nan : num;
  round10 : num -> num
}.

(** Laws of an exact arithmetic (no rounding): the ones scenario shocks
    rely on when they are composed. *)
Record ExactArith (num : Type) `{Arith num} : Prop := {
  nadd_assoc : forall x y z : num, nadd (nadd x y) z = nadd x (nadd y z);
  nadd_zero_shock : forall (x d : num), nadd x (ndiv (of_int 0) d) = x;
  ndiv_of_int_add : forall (a b : Z) (d : num),
      ndiv (of_int (a + b)) d = nadd (ndiv (of_int a) d) (ndiv (of_int b) d)
}.



(** ** binary64 *)

Module F64.
Open Scope float_scope.

(** Python [float(z)] for an integer of any size: the nearest binary64
    number, ties to even.  (Python raises [OverflowError] for an integer
    beyond the binary64 range, where this gives infinity; and the quotient
    [z / 10000] of two integers, which Python rounds once, is rounded here
    at the conversion and again at the division when [|z| > 2^53].) *)
Definition of_Z (z : Z) : float :=
  SF2Prim (binary_normalize prec emax z 0 false).

(** Round to the nearest integer, ties to even ([numpy.rint]): adding and
    subtracting 2^52 rounds off the fraction bits; the sign, that of a zero
    included, is kept. *)
Definition two52 : float := 4503599627370496.

Definition rint (x : float) : float :=
  if PrimFloat.ltb (PrimFloat.abs x) two52 then
    if PrimFloat.get_sign x then - ((- x + two52) - two52)
    else (x + two52) - two52
  else x.

(** [ndarray.round(10)]: scale by 10^10, [rint], scale back. *)
Definition round10 (x : float) : float := rint (x * 1e10) / 1e10.

(** Two floats hold the same value: they are the same float (NaN included),
    or they compare equal (the two zeros). *)
Definition same (x y : float) : Prop :=
  x = y \/ PrimFloat.eqb x y = true.
End F64.

#[export] Instance float_arith : Arith float := {
  nadd := PrimFloat.add;
  nmul := PrimFloat.mul;
  ndiv := PrimFloat.div;
  of_int := F64.of_Z;
  nltb := PrimFloat.ltb;
  nleb := PrimFloat.leb;
  neqb := PrimFloat.eqb
}.

#[export] Instance float_numpy : NumPy float := {
  nan := PrimFloat.nan;
  round10 := F64.round10
}.

(** ** Exact rationals *)

#[export] Instance Qc_arith : Arith Qc := {
  nadd := Qcplus;
  nmul := Qcmult;
  ndiv := Qcdiv;
  of_int := fun z => Q2Qc (inject_Z z);
  nltb := fun x y => match Qccompare x y with Lt => true | _ => false end;
  nleb := fun x y => match Qccompare x y with Gt => false | _ => true end;
  neqb := fun x y => match Qccompare x y with Eq => true | _ => false end
}.

(* ================================================================== *)
(** * Python dictionaries *)

Section Dict.
Context {K V : Type} (keqb : K -> K -> bool).

Definition dict := list (K * V).

(** [d.get(k)] *)
Fixpoint dict_get (d : dict) (k : K) : option V :=
  match d with
  | [] => None
  | (k', v) :: rest => if keqb k' k then Some v else dict_get rest k
  end.

(** [d[k] = v]: replaces the value of an existing key where it stands,
    appends a new key. *)
Fixpoint dict_set (d : dict) (k : K) (v : V) : dict :=
  match d with
  | [] => [(k, v)]
  | (k', v') :: rest =>
      if keqb k' k then (k', v) :: rest else (k', v') :: dict_set rest k v
  end.

(** [dict(zip(keys, values))]: a later pair overrides an earlier one. *)
Definition dict_of_zip (keys : list K) (values : list V) : dict :=
  fold_left (fun d kv => dict_set d (fst kv) (snd kv)) (combine keys values) [].
End Dict.

(* ================================================================== *)
(** * Asset universe *)

Section Universe.
Context {num : Type} `{NumPy num}.

(** One row of the asset table, with the columns [build_and_solve] reads. *)
Record Asset : Type := mkAsset {
  sector : string;
  yield : num;
  duration : num;
  quality_num : num;
  liquidity_label : option string;
  asset_level_min_weight : num;
  asset_level_max_weight : num
}.

Definition DataFrame := list Asset.

(** One row of the "Sample Data" sheet, columns already normalised. *)
Record SheetRow : Type := mkSheetRow {
  sheet_sector : string;
  sheet_yield : num;
  sheet_duration : num;
  sheet_quality : string;
  sheet_liquidity_tier : Z;
  sheet_min_weight : num;
  sheet_max_weight : num
}.

(** data_io.py, [load_assets]: the two "Data Key" tables are turned into
    dictionaries and mapped over the [quality] and [liquidity_tier]
    columns with [Series.map], which turns a value that is not a key into
    NaN (no error is raised).  The sheets are given as already read:
    [credit_quality]/[numeric] are columns A:B of "Data Key",
    [liquidity_tier]/[translation] its columns D:E. *)
Definition load_assets (sheet : list SheetRow)
    (credit_quality : list string) (numeric : list num)
    (liquidity_tier : list Z) (translation : list string) : DataFrame :=
  let qmap := dict_of_zip String.eqb credit_quality numeric in
  let lmap := dict_of_zip Z.eqb liquidity_tier translation in
  map (fun r =>
         {| sector := sheet_sector r;
            yield := sheet_yield r;
            duration := sheet_duration r;
            quality_num :=
              match dict_get String.eqb qmap (sheet_quality r) with
              | Some q => q
              | None => nan
              end;
            liquidity_label := dict_get Z.eqb lmap (sheet_liquidity_tier r);
            asset_level_min_weight := sheet_min_weight r;
            asset_level_max_weight := sheet_max_weight r |}) sheet.
End Universe.

Arguments Asset num : clear implicits.
Arguments DataFrame num : clear implicits.
Arguments SheetRow num : clear implicits.

(* ================================================================== *)
(** * Scenario shocks (scenario.py, [bump_yields]) *)

Section Bump.
Context {num : Type} `{Arith num}.

Definition set_yield (a : Asset num) (y : num) : Asset num :=
  {| sector := sector a;
     yield := y;
     duration := duration a;
     quality_num := quality_num a;
     liquidity_label := liquidity_label a;
     asset_level_min_weight := asset_level_min_weight a;
     asset_level_max_weight := asset_level_max_weight a |}.

(** [series + c]: the scalar is added to every entry. *)
Definition series_add (col : list num) (c : num) : list num :=
  map (fun y => nadd y c) col.

(** The frame [bump_yields(df, bp)] returns: every row's yield plus
    [bp / 10000], the other columns as they were. *)
Definition bump_yields (df : DataFrame num) (bp : Z) : DataFrame num :=
  map (fun a => set_yield a (nadd (yield a) (ndiv (of_int bp) (of_int 10000)))) df.

(** What a shock does to one row. *)
Definition bumped_row (bp : Z) (a b : Asset num) : Prop :=
  yield b = nadd (yield a) (ndiv (of_int bp) (of_int 10000))
  /\ sector b = sector a
  /\ duration b = duration a
  /\ quality_num b = quality_num a
  /\ liquidity_label b = liquidity_label a
  /\ asset_level_min_weight b = asset_level_min_weight a
  /\ asset_level_max_weight b = asset_level_max_weight a.

(** ** The same function on a store of frames

    [df.copy()] allocates a new frame and [bumped['yield'] = ...]
    overwrites a column of the frame it is applied to: frames are
    objects, named by references into a store. *)
Definition ref := nat.
Definition store := list (DataFrame num).

(** [df.copy()] *)
Definition df_copy (df : ref) (st : store) : option (ref * store) :=
  match nth_error st df with
  | Some rows => Some (List.length st, st ++ [rows])
  | None => None
  end.

(** [df['yield']] *)
Definition df_get_yield (df : ref) (st : store) : option (list num) :=
  option_map (map yield) (nth_error st df).

Fixpoint store_update (st : store) (r : ref) (rows : DataFrame num) : store :=
  match st, r with
  | [], _ => []
  | _ :: rest, O => rows :: rest
  | x :: rest, S r' => x :: store_update rest r' rows
  end.

(** [df['yield'] = col]: the column of the frame [df] points to is
    replaced; a column of another length is refused. *)
Definition df_set_yield (df : ref) (col : list num) (st : store) : option store :=
  match nth_error st df with
  | Some rows =>
      if Nat.eqb (List.length rows) (List.length col)
      then Some (store_update st df
                   (map (fun ay => set_yield (fst ay) (snd ay)) (combine rows col)))
      else None
  | None => None
  end.

(** scenario.py lines 19-22. *)
Definition bump_yields_store (df : ref) (bp : Z) (st : store) : option (ref * store) :=
  match df_copy df st with
  | Some (bumped, st1) =>
      match df_get_yield bumped st1 with
      | Some col =>
          match df_set_yield bumped
                  (series_add col (ndiv (of_int bp) (of_int 10000))) st1 with
          | Some st2 => Some (bumped, st2)
          | None => None
          end
      | None => None
      end
  | None => None
  end.
End Bump.

(** The scenario label [f"{shock:+}bp"]: the sign, always printed, the
    decimal digits of the absolute value, and the suffix. *)
Definition shock_label (shock : Z) : string :=
  match Z.to_int shock with
  | Decimal.Pos d => ("+" ++ NilZero.string_of_uint d ++ "bp")%string
  | Decimal.Neg d => ("-" ++ NilZero.string_of_uint d ++ "bp")%string
  end.

(* ================================================================== *)
(** * The allocation engine (model.py) *)

Section Engine.
Context {num : Type} `{NumPy num}.

(** config.py: the process-wide constants. *)
Record Config : Type := mkConfig {
  SECTOR_BOUNDS : dict (K:=string) (V:=num * num);
  DURATION_BOUNDS : num * num;
  MIN_SAME_DAY : num;
  MAX_RATING_NUM : num
}.

(** ** Constraints as the solver receives them *)

Inductive cmp : Type := Le | Ge | EqTo.

(** Scalar expressions over the decision vector [w]. *)
Inductive expr : Type :=
| ESum                         (* cp.sum(w) *)
| EDot (coef : list num)       (* coef @ w *)
| ESumMask (mask : list bool). (* cp.sum(w[mask]) *)

Inductive constraint : Type :=
| CLower (lo : list num)                 (* w >= lo, entry by entry *)
| CUpper (hi : list num)                 (* w <= hi, entry by entry *)
| CScalar (e : expr) (c : cmp) (bound : num).

Record Problem : Type := mkProblem {
  n_vars : nat;                  (* cp.Variable(n) *)
  maximize : list num;           (* cp.Maximize(y @ w) *)
  subject_to : list constraint
}.

(** ** The meaning of a constraint for a weight vector *)

Definition sum_list (xs : list num) : num := fold_left nadd xs (of_int 0).

(** The value of [a @ b] for two vectors of one length: the sum of the
    products, taken from the left.  In an exact arithmetic this is the dot
    product whatever the order; in binary64 NumPy leaves the order of the
    sum and the rounding of the products to its BLAS, whose result can
    differ from this one in the last bit. *)
Definition dot_value (a b : list num) : num :=
  sum_list (map (fun xy => nmul (fst xy) (snd xy)) (combine a b)).

(** [a @ b]; NumPy refuses vectors of different length. *)
Definition dot (a b : list num) : option num :=
  if Nat.eqb (List.length a) (List.length b)
  then Some (dot_value a b)
  else None.

Definition select (mask : list bool) (w : list num) : list num :=
  map snd (filter fst (combine mask w)).

Definition eval_expr (e : expr) (w : list num) : option num :=
  match e with
  | ESum => Some (sum_list w)
  | EDot coef => dot coef w
  | ESumMask mask => Some (sum_list (select mask w))
  end.

Definition compare_by (c : cmp) (x b : num) : bool :=
  match c with
  | Le => nleb x b
  | Ge => nleb b x
  | EqTo => neqb x b
  end.

Definition satisfies (w : list num) (c : constraint) : bool :=
  match c with
  | CLower lo =>
      Nat.eqb (List.length lo) (List.length w)
      && forallb (fun lw => nleb (fst lw) (snd lw)) (combine lo w)
  | CUpper hi =>
      Nat.eqb (List.length hi) (List.length w)
      && forallb (fun hw => nleb (snd hw) (fst hw)) (combine hi w)
  | CScalar e c b =>
      match eval_expr e w with
      | Some x => compare_by c x b
      | None => false
      end
  end.

(** ** Building the constraint list (model.py lines 51-83) *)

Definition same_day_mask (df : DataFrame num) : list bool :=
  map (fun a => match liquidity_label a with
                | Some l => String.eqb l "Same Day"
                | None => false
                end) df.

Definition sector_mask (df : DataFrame num) (s : string) : list bool :=
  map (fun a => String.eqb (sector a) s) df.

(** One turn of the loop over [effective_sector.items()]. *)
Definition add_sector (df : DataFrame num) (constraints : list constraint)
    (item : string * (num * num)) : list constraint :=
  let s := fst item in
  let lo := fst (snd item) in
  let hi := snd (snd item) in
  let mask := sector_mask df s in
  let constraints :=
    if nltb (of_int 0) lo
    then constraints ++ [CScalar (ESumMask mask) Ge lo]
    else constraints in
  constraints ++ [CScalar (ESumMask mask) Le hi].

Definition base_constraints (cfg : Config) (df : DataFrame num)
    (effective_duration : num * num) : list constraint :=
  [ CLower (map asset_level_min_weight df);
    CUpper (map asset_level_max_weight df);
    CScalar ESum EqTo (of_int 1);
    CScalar (EDot (map duration df)) Ge (fst effective_duration);
    CScalar (EDot (map duration df)) Le (snd effective_duration);
    CScalar (EDot (map quality_num df)) Le (MAX_RATING_NUM cfg);
    CScalar (ESumMask (same_day_mask df)) Ge (MIN_SAME_DAY cfg) ].

(** model.py lines 51-52: an argument that is given takes the place of the
    configured default. *)
Definition effective_sector (cfg : Config)
    (sector_bounds : option (dict (K:=string) (V:=num * num)))
    : dict (K:=string) (V:=num * num) :=
  match sector_bounds with Some sb => sb | None => SECTOR_BOUNDS cfg end.

Definition effective_duration (cfg : Config)
    (duration_bounds : option (num * num)) : num * num :=
  match duration_bounds with Some db => db | None => DURATION_BOUNDS cfg end.

Definition build_constraints (cfg : Config) (df : DataFrame num)
    (sector_bounds : option (dict (K:=string) (V:=num * num)))
    (duration_bounds : option (num * num)) : list constraint :=
  fold_left (add_sector df) (effective_sector cfg sector_bounds)
            (base_constraints cfg df (effective_duration cfg duration_bounds)).

(** The number of sector entries with a positive lower cap. *)
Definition positive_floors (items : list (string * (num * num))) : nat :=
  List.length (filter (fun item => nltb (of_int 0) (fst (snd item))) items).

Definition build_problem (cfg : Config) (df : DataFrame num)
    (sector_bounds : option (dict (K:=string) (V:=num * num)))
    (duration_bounds : option (num * num)) : Problem :=
  {| n_vars := List.length df;
     maximize := map yield df;
     subject_to := build_constraints cfg df sector_bounds duration_bounds |}.
End Engine.

Arguments Config num : clear implicits.
Arguments expr num : clear implicits.
Arguments constraint num : clear implicits.
Arguments Problem num : clear implicits.

(* ================================================================== *)
(** * Solving (model.py lines 85-101) and the sweep (scenario.py) *)

(** What [getattr(cp, name)] can give back: one of CVXPY's solver-name
    constants ([cp.ECOS] is the string "ECOS"), or any other attribute of
    the module (a class such as [cp.Variable], a function such as [cp.sum]). *)
Inductive cp_object : Type :=
| SolverConstant (name : string)
| OtherAttribute (name : string).

(** The exceptions that leave [build_and_solve]. *)
Inductive py_error : Type :=
| AttributeError (attr : string)      (* getattr(cp, solver) found nothing *)
| SolverError (given : cp_object)     (* raised inside prob.solve *)
| TypeError                           (* np.array(None).round(10) *)
| ValueError.                         (* a @ b on different lengths *)

(** Problem status after [prob.solve]. *)
Inductive status : Type :=
| OPTIMAL | INFEASIBLE | UNBOUNDED | OTHER_STATUS (s : string).

Section Solve.
Context {num : Type} `{NumPy num}.

(** How a call of [prob.solve] ends: it raises, or it returns leaving a
    status on the problem and [w.value] set to a vector or to [None]. *)
Inductive solve_outcome : Type :=
| Raises (e : py_error)
| Returns (st : status) (w_value : option (list num)).

Record Diag : Type := mkDiag {
  yield_ : num;
  diag_duration : num;
  rating_num : num
}.

Definition result : Type := (py_error + (list num * Diag))%type.

(** The backend: CVXPY's attribute table and its solve call. *)
Variable cp_getattr : string -> option cp_object.
Variable prob_solve : Problem num -> cp_object -> solve_outcome.

(** The process-wide configuration module. *)
Variable cfg : Config num.

(** model.py lines 95-99: the three portfolio scalars. *)
Definition diagnostics (y dur qnum weights : list num) : py_error + Diag :=
  match dot y weights with
  | None => inl ValueError
  | Some py =>
      match dot dur weights with
      | None => inl ValueError
      | Some pd =>
          match dot qnum weights with
          | None => inl ValueError
          | Some pq =>
              inr {| yield_ := py; diag_duration := pd; rating_num := pq |}
          end
      end
  end.

(** model.py line 90. *)
Definition choose_solver (solver : string) : py_error + cp_object :=
  match cp_getattr solver with
  | Some chosen_solver => inr chosen_solver
  | None => inl (AttributeError solver)
  end.

(** model.py lines 94-101, from the outcome of the solve call on. *)
Definition extract (df : DataFrame num) (o : solve_outcome) : result :=
  match o with
  | Raises e => inl e
  | Returns _ None => inl TypeError
  | Returns _ (Some value) =>
      let weights := map round10 value in
      match diagnostics (map yield df) (map duration df)
                        (map quality_num df) weights with
      | inl e => inl e
      | inr diag => inr (weights, diag)
      end
  end.

Definition build_and_solve (df : DataFrame num)
    (sector_bounds : option (dict (K:=string) (V:=num * num)))
    (duration_bounds : option (num * num))
    (solver : string) : result :=
  let prob := build_problem cfg df sector_bounds duration_bounds in
  match choose_solver solver with
  | inl e => inl e
  | inr chosen_solver => extract df (prob_solve prob chosen_solver)
  end.

(** [build_and_solve(df)]: every optional argument at its default. *)
Definition build_and_solve_defaults (df : DataFrame num) : result :=
  build_and_solve df None None "ECOS".

(** scenario.py lines 36-44: the loop over [bps], [out] being the
    dictionary filled so far.  An exception leaves the loop. *)
Fixpoint run_scenarios_from (out : dict (K:=string) (V:=Diag))
    (df : DataFrame num) (bps : list Z)
    : py_error + dict (K:=string) (V:=Diag) :=
  match bps with
  | [] => inr out
  | shock :: rest =>
      let _df := bump_yields df shock in
      match build_and_solve_defaults _df with
      | inl e => inl e
      | inr (w, d) =>
          run_scenarios_from (dict_set String.eqb out (shock_label shock) d) df rest
      end
  end.

Definition run_scenarios (df : DataFrame num) (bps : list Z)
    : py_error + dict (K:=string) (V:=Diag) :=
  run_scenarios_from [] df bps.
End Solve.

Arguments solve_outcome num : clear implicits.
Arguments Diag num : clear implicits.
Arguments result num : clear implicits.

(** The default of [run_scenarios]'s [bps]. *)
Definition default_bps : list Z := [-100; 0; 100]%Z.

(* ================================================================== *)
(** * The program's constants and sample data, in binary64 *)

Module Sample.
Open Scope float_scope.

(** config.py *)
Definition config_py : Config float :=
  {| SECTOR_BOUNDS :=
       [ ("TSY", (0.10, 1.00));
         ("ABS", (0.00, 0.20));
         ("MBS", (0.00, 0.40));
         ("Corp", (0.00, 0.50));
         ("High Yield", (0.00, 0.05)) ];
     DURATION_BOUNDS := (2, 8);
     MIN_SAME_DAY := 0.20;
     MAX_RATING_NUM := 5 |}.

(** The attributes of the [cvxpy] module that model.py itself names:
    the solver constants of its docstring, and the classes and functions
    it calls. *)
Definition cvxpy_attrs (name : string) : option cp_object :=
  if existsb (String.eqb name) ["ECOS"; "SCS"; "OSQP"; "CVXOPT"]%string
  then Some (SolverConstant name)
  else if existsb (String.eqb name) ["Variable"; "sum"; "Maximize"; "Problem"]%string
  then Some (OtherAttribute name)
  else None.

(** A three-asset universe. *)
Definition universe : DataFrame float :=
  [ mkAsset "TSY" 0.04 3 1 (Some "Same Day"%string) 0 1;
    mkAsset "Corp" 0.06 5 6 (Some "Next Day"%string) 0 1;
    mkAsset "MBS" 0.05 4 2 (Some "Same Day"%string) 0 1 ].

Definition allocation : list float := [0.5; 0.2; 0.3].

(** The same universe over the rationals. *)
Definition q (n : Z) (d : positive) : Qc := Q2Qc (Qmake n d).

Definition universe_exact : DataFrame Qc :=
  [ mkAsset "TSY" (q 4 100) (q 3 1) (q 1 1) (Some "Same Day"%string) (q 0 1) (q 1 1);
    mkAsset "Corp" (q 6 100) (q 5 1) (q 6 1) (Some "Next Day"%string) (q 0 1) (q 1 1);
    mkAsset "MBS" (q 5 100) (q 4 1) (q 2 1) (Some "Same Day"%string) (q 0 1) (q 1 1) ].

(** A backend that solves when handed a solver constant and raises
    [SolverError] on anything else. *)
Definition strict_backend (p : Problem float) (s : cp_object) : solve_outcome float :=
  match s with
  | SolverConstant _ => Returns OPTIMAL (Some allocation)
  | OtherAttribute _ => Raises (SolverError s)
  end.

(** Backends that report one status for every problem. *)
Definition infeasible_backend (p : Problem float) (s : cp_object) : solve_outcome float :=
  Returns INFEASIBLE None.

Definition unbounded_backend (p : Problem float) (s : cp_object) : solve_outcome float :=
  Returns UNBOUNDED None.

(** A backend whose solver breaks down numerically on the problem whose
    first objective coefficient is below 0.035, and solves the others. *)
Definition flaky_backend (p : Problem float) (s : cp_object) : solve_outcome float :=
  match maximize p with
  | y0 :: _ =>
      if PrimFloat.ltb y0 0.035 then Raises (SolverError s)
      else Returns OPTIMAL (Some allocation)
  | [] => Returns OPTIMAL (Some [])
  end.

(** A sheet with a liquidity tier and a sector that no table knows. *)
Definition sheet : list (SheetRow float) :=
  [ mkSheetRow "TSY" 0.04 3 "AAA" 1 0 1;
    mkSheetRow "Muni" 0.05 4 "AA" 9 0 1 ].
End Sample.

(* ================================================================== *)
(** * Column names (data_io.py lines 28-33) *)

(** Column names are taken as ASCII strings. *)
Definition is_ascii_char (c : ascii) : bool := (nat_of_ascii c <? 128)%nat.

(** [str.isspace] on an ASCII character: tab to carriage return (9-13),
    the separators 28-31, and the space. *)
Definition is_space (c : ascii) : bool :=
  let n := nat_of_ascii c in
  (((9 <=? n) && (n <=? 13)) || ((28 <=? n) && (n <=? 31)) || (n =? 32))%nat.

Definition is_upper (c : ascii) : bool :=
  let n := nat_of_ascii c in ((65 <=? n) && (n <=? 90))%nat.

Definition lower_char (c : ascii) : ascii :=
  if is_upper c then ascii_of_nat (nat_of_ascii c + 32) else c.

(** A character of a normalised name: not the space, not a capital. *)
Definition plain_char (c : ascii) : bool :=
  negb (Ascii.eqb c " ") && negb (is_upper c).

Fixpoint string_map (f : ascii -> ascii) (s : string) : string :=
  match s with
  | EmptyString => EmptyString
  | String c rest => String (f c) (string_map f rest)
  end.

Fixpoint string_forall (p : ascii -> bool) (s : string) : bool :=
  match s with
  | EmptyString => true
  | String c rest => p c && string_forall p rest
  end.

(** [s.lstrip()] *)
Fixpoint lstrip (s : string) : string :=
  match s with
  | EmptyString => EmptyString
  | String c rest => if is_space c then lstrip rest else s
  end.

(** [s.rstrip()] *)
Fixpoint rstrip (s : string) : string :=
  match s with
  | EmptyString => EmptyString
  | String c rest =>
      match rstrip rest with
      | EmptyString => if is_space c then EmptyString else String c EmptyString
      | kept => String c kept
      end
  end.

(** [s.strip()] *)
Definition strip (s : string) : string := lstrip (rstrip s).

(** [s.lower()] *)
Definition lower (s : string) : string := string_map lower_char s.

(** [s.replace(' ', '_')] *)
Definition replace_space (s : string) : string :=
  string_map (fun c => if Ascii.eqb c " " then "_"%char else c) s.

(** [df.columns.str.strip().str.lower().str.replace(' ', '_')], on one name. *)
Definition normalize_column (s : string) : string :=
  replace_space (lower (strip s)).

(* ================================================================== *)
(** * The sweep on a store of frames *)

Section SweepStore.
Context {num : Type} `{NumPy num}.
Variable cp_getattr : string -> option cp_object.
Variable prob_solve : Problem num -> cp_object -> solve_outcome num.
Variable cfg : Config num.

(** scenario.py lines 36-44 with the frames as objects: every turn of the
    loop allocates the bumped frame, which [build_and_solve] then reads.
    [None] stands for a reference that names no frame. *)
Fixpoint run_scenarios_store_from (out : dict (K:=string) (V:=Diag num))
    (df : ref) (bps : list Z) (st : store)
    : option ((py_error + dict (K:=string) (V:=Diag num)) * store) :=
  match bps with
  | [] => Some (inr out, st)
  | shock :: rest =>
      match bump_yields_store df shock st with
      | None => None
      | Some (_df, st1) =>
          match nth_error st1 _df with
          | None => None
          | Some rows =>
              match build_and_solve_defaults cp_getattr prob_solve cfg rows with
              | inl e => Some (inl e, st1)
              | inr (w, d) =>
                  run_scenarios_store_from
                    (dict_set String.eqb out (shock_label shock) d) df rest st1
              end
          end
      end
  end.

Definition run_scenarios_store (df : ref) (bps : list Z) (st : store)
    : option ((py_error + dict (K:=string) (V:=Diag num)) * store) :=
  run_scenarios_store_from [] df bps st.
End SweepStore.

(* ================================================================== *)
(** * The dashboard's overrides (streamlit_app.py lines 35-45 and 66-67) *)

Section Dashboard.
Context {num : Type} `{NumPy num}.

(** The sliders: for each sector of the original bounds, the value the user
    leaves the slider at ([slider sec hi], its thumb starting at [hi]). *)
Definition caps_user (slider : string -> num -> num)
    (original_sector_bounds : dict (K:=string) (V:=num * num))
    : dict (K:=string) (V:=num) :=
  fold_left (fun caps item =>
               dict_set String.eqb caps (fst item) (slider (fst item) (snd (snd item))))
            original_sector_bounds [].

(** [{sec: (0.0, caps_user[sec]) for sec in caps_user}] *)
Definition override_sector (caps : dict (K:=string) (V:=num))
    : dict (K:=string) (V:=num * num) :=
  map (fun cap => (fst cap, (of_int 0, snd cap))) caps.
End Dashboard.

(* ================================================================== *)
(** * The command line (cli.py, [main]) *)

Section Cli.
Context {num : Type} `{NumPy num}.

(** The parsed arguments: [--xls], [--out], [--scenario]. *)
Record Args : Type := mkArgs {
  xls : option string;
  out : string;
  scenario : bool
}.

(** The sheets [load_assets] reads from a workbook. *)
Record Workbook : Type := mkWorkbook {
  sample_data : list (SheetRow num);
  key_credit_quality : list string;
  key_numeric : list num;
  key_liquidity_tier : list Z;
  key_translation : list string
}.

(** The exported sheet: the assets with the column [optimal_weight]. *)
Definition Export : Type := list (Asset num * num).

(** What [main] prints and writes, in order. *)
Inductive event : Type :=
| PrintBase (diag : Diag num)                            (* "Base solution:" *)
| PrintScenarios (scen : dict (K:=string) (V:=Diag num)) (* "Scenarios:" *)
| WriteExcel (file : string) (sheet : Export)            (* df.to_excel *)
| PrintSaved (file : string).                            (* "Saved" *)

(** How [main] ends. *)
Inductive ending : Type :=
| Finished
| SystemExit (workbook : string)   (* "Workbook not found: ..." *)
| ReadFailed                       (* pandas raised while reading *)
| Uncaught (e : py_error)          (* an exception of the engine *)
| WriteFailed.                     (* the writer raised *)

(** The file system and the backend [main] runs against. *)
Variable DEFAULT_XLS : string.
Variable path_exists : string -> bool.
Variable read_workbook : string -> option Workbook.
Variable write_excel : string -> Export -> bool.
Variable cp_getattr : string -> option cp_object.
Variable prob_solve : Problem num -> cp_object -> solve_outcome num.
Variable cfg : Config num.

(** cli.py line 34: an absent or empty [--xls] means the default workbook. *)
Definition resolve_xls (a : Args) : string :=
  match xls a with
  | Some p => if String.eqb p "" then DEFAULT_XLS else p
  | None => DEFAULT_XLS
  end.

(** cli.py lines 56-58. *)
Definition export (a : Args) (sheet : Export) (printed : list event)
    : list event * ending :=
  if write_excel (out a) sheet
  then (printed ++ [WriteExcel (out a) sheet; PrintSaved (out a)], Finished)
  else (printed, WriteFailed).

(** cli.py lines 34-58. *)
Definition main (a : Args) : list event * ending :=
  let xls_path := resolve_xls a in
  if negb (path_exists xls_path) then ([], SystemExit xls_path)
  else
    match read_workbook xls_path with
    | None => ([], ReadFailed)
    | Some wb =>
        let df := load_assets (sample_data wb) (key_credit_quality wb) (key_numeric wb)
                              (key_liquidity_tier wb) (key_translation wb) in
        match build_and_solve_defaults cp_getattr prob_solve cfg df with
        | inl e => ([], Uncaught e)
        | inr (weights, diag) =>
            if negb (Nat.eqb (List.length weights) (List.length df))
            then ([], Uncaught ValueError)
            else
              let sheet := combine df weights in
              let printed := [PrintBase diag] in
              if scenario a then
                match run_scenarios cp_getattr prob_solve cfg df default_bps with
                | inl e => (printed, Uncaught e)
                | inr scen => export a sheet (printed ++ [PrintScenarios scen])
                end
              else export a sheet printed
        end
    end.
End Cli.

Arguments Workbook num : clear implicits.
Arguments event num : clear implicits.

(** The allocation of [Sample.allocation] over the rationals. *)
Module ExactSample.
Definition allocation : list Qc := [Sample.q 1 2; Sample.q 1 5; Sample.q 3 10].
End ExactSample.

(** A run of [main]: a workbook of two assets, a backend that splits the
    capital evenly, a file system that has every file and takes every
    write. *)
Module CliSample.
Open Scope float_scope.

Definition workbook : Workbook float :=
  mkWorkbook Sample.sheet ["AAA"; "AA"]%string [1; 2]
             [1; 2; 3]%Z ["Same Day"; "Next Day"; "T+2"]%string.

Definition backend (p : Problem float) (s : cp_object) : solve_outcome float :=
  Returns OPTIMAL (Some [0.5; 0.5]).

Definition args : Args := mkArgs None "optimized_portfolio.xlsx" false.

Definition run : list (event float) * ending :=
  main "Candidate Optimizer Project.xlsx" (fun _ => true) (fun _ => Some workbook)
       (fun _ _ => true) Sample.cvxpy_attrs backend Sample.config_py args.
End CliSample.

(* ================================================================== *)
(** * Properties of [bump_yields] *)

Section BumpFacts.
Context {num : Type} `{Arith num}.

Lemma bump_yields_rows (df : DataFrame num) (bp : Z) :
  Forall2 (bumped_row bp) df (bump_yields df bp).
Proof.
  induction df as [|a df IH]; simpl; constructor; auto.
  unfold bumped_row; simpl; repeat split; reflexivity.
Qed.

Lemma store_update_last (st : store) (rows rows' : DataFrame num) :
  store_update (st ++ [rows]) (List.length st) rows' = st ++ [rows'].
Proof. induction st as [|x st IH]; simpl; [reflexivity | now rewrite IH]. Qed.

Lemma set_column_bump (rows : DataFrame num) (c : num) :
  map (fun ay => set_yield (fst ay) (snd ay))
      (combine rows (series_add (map yield rows) c))
  = map (fun a => set_yield a (nadd (yield a) c)) rows.
Proof. induction rows as [|a rows IH]; simpl; [reflexivity | now rewrite IH]. Qed.

Lemma bump_yields_store_eq (st : store) (df : ref) (rows : DataFrame num) (bp : Z) :
  nth_error st df = Some rows ->
  bump_yields_store df bp st
  = Some (List.length st, st ++ [bump_yields rows bp]).
Proof.
  intros Hdf. unfold bump_yields_store, df_copy. rewrite Hdf.
  assert (Hnew : nth_error (st ++ [rows]) (List.length st) = Some rows).
  { rewrite nth_error_app2 by lia. now rewrite Nat.sub_diag. }
  unfold df_get_yield. rewrite Hnew. simpl.
  unfold df_set_yield. rewrite Hnew.
  unfold series_add at 1. rewrite !length_map, Nat.eqb_refl.
  rewrite store_update_last, set_column_bump. reflexivity.
Qed.
End BumpFacts.

(** C7.  [bump_yields] applied to the frame a reference [df] names
    allocates a new frame and returns its reference; in the new frame every
    asset's yield is the base yield plus [bp / 10000], the same amount for
    every asset, and every other field is the base asset's; every frame
    that was in the store before the call, the base frame among them, is
    unchanged after it. *)
Theorem bump_yields_shifts_every_yield_and_keeps_base
    {num : Type} `{Arith num}
    (st : store) (df : ref) (rows : DataFrame num) (bp : Z) :
  nth_error st df = Some rows ->
  exists (bumped : ref) (st' : store),
    bump_yields_store df bp st = Some (bumped, st')
    /\ nth_error st' bumped = Some (bump_yields rows bp)
    /\ bumped <> df
    /\ Forall2 (bumped_row bp) rows (bump_yields rows bp)
    /\ (forall r old, nth_error st r = Some old -> nth_error st' r = Some old).
Proof.
  intros Hdf.
  exists (List.length st), (st ++ [bump_yields rows bp]).
  split; [now apply bump_yields_store_eq|].
  split; [rewrite nth_error_app2 by lia; now rewrite Nat.sub_diag|].
  split.
  { assert (df < List.length st)%nat
      by (apply nth_error_Some; rewrite Hdf; discriminate).
    lia. }
  split; [apply bump_yields_rows|].
  intros r old Hr. rewrite nth_error_app1; [exact Hr|].
  apply nth_error_Some. rewrite Hr. discriminate.
Qed.

Lemma bump_yields_shifts_every_yield_and_keeps_base_witness :
  exists (bumped : ref) (st' : store),
    bump_yields_store 0 100 [Sample.universe] = Some (bumped, st')
    /\ nth_error st' bumped = Some (bump_yields Sample.universe 100)
    /\ bumped <> 0%nat
    /\ Forall2 (bumped_row 100) Sample.universe (bump_yields Sample.universe 100)
    /\ (forall r old, nth_error [Sample.universe] r = Some old ->
                      nth_error st' r = Some old).
Proof.
  apply (bump_yields_shifts_every_yield_and_keeps_base
           [Sample.universe] 0%nat Sample.universe 100%Z).
  reflexivity.
Defined.

(** ** Composition of shocks *)

Lemma Q2Qc_inject_Z_add (a b : Z) :
  Q2Qc (inject_Z (a + b)) = Qcplus (Q2Qc (inject_Z a)) (Q2Qc (inject_Z b)).
Proof.
  apply Qc_is_canon. unfold Qcplus, Q2Qc; cbn [this].
  rewrite !Qred_correct, inject_Z_plus. reflexivity.
Qed.

(** Rational arithmetic is exact. *)
Lemma Qc_exact : ExactArith Qc.
Proof.
  constructor; simpl.
  - intros x y z. symmetry. apply Qcplus_assoc.
  - intros x d. unfold Qcdiv.
    replace (Q2Qc (inject_Z 0)) with (Q2Qc 0) by (apply Qc_is_canon; reflexivity).
    rewrite Qcmult_0_l. apply Qcplus_0_r.
  - intros a b d. unfold Qcdiv.
    rewrite Q2Qc_inject_Z_add. apply Qcmult_plus_distr_l.
Qed.

Lemma bump_yields_zero_exact {num : Type} `{Arith num} :
  ExactArith num ->
  forall df : DataFrame num, map yield (bump_yields df 0) = map yield df.
Proof.
  intros E df. induction df as [|a df IH]; simpl; [reflexivity|].
  rewrite IH. f_equal. apply (nadd_zero_shock _ E).
Qed.

Lemma bump_yields_compose_exact {num : Type} `{Arith num} :
  ExactArith num ->
  forall (df : DataFrame num) (a b : Z),
    map yield (bump_yields (bump_yields df a) b) = map yield (bump_yields df (a + b)).
Proof.
  intros E df a b. induction df as [|r df IH]; simpl; [reflexivity|].
  rewrite IH. f_equal.
  rewrite (nadd_assoc _ E), (ndiv_of_int_add _ E). reflexivity.
Qed.

(** In binary64, adding the zero shock gives back the same float, except
    that the negative zero becomes the positive zero. *)
Lemma float_add_zero_shock (x : float) :
  F64.same (PrimFloat.add x (PrimFloat.div (F64.of_Z 0) (F64.of_Z 10000))) x.
Proof.
  replace (PrimFloat.div (F64.of_Z 0) (F64.of_Z 10000)) with 0%float
    by (vm_compute; reflexivity).
  pose proof (add_spec x 0%float) as Hadd.
  replace (Prim2SF 0%float) with (S754_zero false) in Hadd by reflexivity.
  destruct (Prim2SF x) as [s| s| |s m e] eqn:Hx.
  - (* a zero *)
    right.
    assert (Hsum : PrimFloat.add x 0%float = 0%float).
    { apply Prim2SF_inj. rewrite Hadd. destruct s; reflexivity. }
    rewrite Hsum.
    assert (Hz : x = 0%float \/ x = (-0)%float).
    { destruct s; [right | left]; apply Prim2SF_inj; rewrite Hx; reflexivity. }
    destruct Hz as [-> | ->]; reflexivity.
  - left. apply Prim2SF_inj. rewrite Hadd, Hx. reflexivity.
  - left. apply Prim2SF_inj. rewrite Hadd, Hx. reflexivity.
  - left. apply Prim2SF_inj. rewrite Hadd, Hx. reflexivity.
Qed.

(** C10, as the program computes (binary64): two shocks of 50 bp applied
    one after the other do not give the yields of one shock of 100 bp. *)
Lemma bump_yields_composition_rounds :
  map yield (bump_yields (bump_yields Sample.universe 50) 50)
  <> map yield (bump_yields Sample.universe (50 + 50)).
Proof.
  intro Heq.
  apply (f_equal (fun ys => match ys with
                            | y :: _ => PrimFloat.eqb y 0.05%float
                            | [] => false
                            end)) in Heq.
  vm_compute in Heq. discriminate Heq.
Qed.

(** C10, amended.  A zero shock leaves every yield as it is: in binary64 the
    same float (the negative zero aside, which comes back as the positive
    zero), and in any exact arithmetic the same number.  In an exact
    arithmetic (rationals), a shock [b] applied after a shock [a] gives the
    yields of the single shock [a + b]. *)
Theorem bump_yields_zero_identity_and_exact_composition :
  (forall df : DataFrame float,
      Forall2 F64.same (map yield (bump_yields df 0)) (map yield df))
  /\ (forall (num : Type) (A : Arith num), ExactArith num ->
      forall (df : DataFrame num) (a b : Z),
        map yield (bump_yields df 0) = map yield df
        /\ map yield (bump_yields (bump_yields df a) b)
           = map yield (bump_yields df (a + b))).
Proof.
  split.
  - intros df. induction df as [|r df IH]; simpl; constructor; auto.
    apply float_add_zero_shock.
  - intros num A E df a b. split.
    + now apply bump_yields_zero_exact.
    + now apply bump_yields_compose_exact.
Qed.

Lemma bump_yields_zero_identity_and_exact_composition_witness :
  map yield (bump_yields Sample.universe_exact 0) = map yield Sample.universe_exact
  /\ map yield (bump_yields (bump_yields Sample.universe_exact 50) 50)
     = map yield (bump_yields Sample.universe_exact (50 + 50)).
Proof.
  apply (proj2 bump_yields_zero_identity_and_exact_composition
               Qc Qc_arith Qc_exact Sample.universe_exact 50%Z 50%Z).
Defined.

(* ================================================================== *)
(** * The constraint builder *)

Section BuilderFacts.
Context {num : Type} `{NumPy num}.

(** The constraints one sector entry contributes. *)
Lemma add_sector_appends (df : DataFrame num) (cs : list (constraint num))
    (item : string * (num * num)) :
  add_sector df cs item = cs ++ add_sector df [] item.
Proof.
  unfold add_sector. destruct (nltb (of_int 0) (fst (snd item))); simpl.
  - rewrite <- app_assoc. reflexivity.
  - reflexivity.
Qed.

Lemma fold_add_sector (df : DataFrame num) (items : list (string * (num * num)))
    (cs : list (constraint num)) :
  fold_left (add_sector df) items cs = cs ++ flat_map (add_sector df []) items.
Proof.
  revert cs. induction items as [|item items IH]; intros cs; simpl.
  - now rewrite app_nil_r.
  - rewrite IH, add_sector_appends, <- app_assoc. reflexivity.
Qed.

Lemma build_constraints_split (cfg : Config num) (df : DataFrame num)
    (sb : option (list (string * (num * num)))) (db : option (num * num)) :
  build_constraints cfg df sb db
  = base_constraints cfg df (effective_duration cfg db)
    ++ flat_map (add_sector df []) (effective_sector cfg sb).
Proof. apply fold_add_sector. Qed.

Lemma add_sector_length (df : DataFrame num) (item : string * (num * num)) :
  List.length (add_sector df [] item)
  = if nltb (of_int 0) (fst (snd item)) then 2%nat else 1%nat.
Proof. unfold add_sector. now destruct (nltb (of_int 0) (fst (snd item))). Qed.

Lemma sector_constraints_length (df : DataFrame num)
    (items : list (string * (num * num))) :
  List.length (flat_map (add_sector df []) items)
  = (List.length items + positive_floors items)%nat.
Proof.
  unfold positive_floors.
  induction items as [|item items IH]; simpl; [reflexivity|].
  rewrite length_app, add_sector_length, IH.
  destruct (nltb (of_int 0) (fst (snd item))); simpl; lia.
Qed.
(** What the sector constraints ask of a weight vector: every configured
    sector's weights sum to at most its upper cap, and to at least its lower
    cap when that cap is positive. *)
Lemma satisfies_sector_constraints (df : DataFrame num)
    (items : list (string * (num * num))) (w : list num) :
  forallb (satisfies w) (flat_map (add_sector df []) items) = true <->
  forall s lo hi, In (s, (lo, hi)) items ->
    nleb (sum_list (select (sector_mask df s) w)) hi = true
    /\ (nltb (of_int 0) lo = true ->
        nleb lo (sum_list (select (sector_mask df s) w)) = true).
Proof.
  rewrite forallb_forall. split.
  - intros Hall s lo hi Hin.
    assert (Hc : forall c, In c (add_sector df [] (s, (lo, hi))) -> satisfies w c = true).
    { intros c Hc. apply Hall. apply in_flat_map. eauto. }
    unfold add_sector in Hc. simpl in Hc.
    destruct (nltb (of_int 0) lo) eqn:Hlo; simpl in Hc.
    + split.
      * apply (Hc (CScalar (ESumMask (sector_mask df s)) Le hi)). auto.
      * intros _. apply (Hc (CScalar (ESumMask (sector_mask df s)) Ge lo)). auto.
    + split; [|discriminate].
      apply (Hc (CScalar (ESumMask (sector_mask df s)) Le hi)). auto.
  - intros Hsem c Hc. apply in_flat_map in Hc.
    destruct Hc as ([s [lo hi]] & Hin & Hc).
    destruct (Hsem s lo hi Hin) as [Hhi Hlo].
    unfold add_sector in Hc. simpl in Hc.
    destruct (nltb (of_int 0) lo); simpl in Hc.
    + destruct Hc as [<- | [<- | []]]; simpl; auto.
    + destruct Hc as [<- | []]; simpl; auto.
Qed.

(** The Same Day mask has one entry per asset, true exactly for the assets
    whose liquidity label is "Same Day". *)
Lemma same_day_mask_selects (df : DataFrame num) :
  Forall2 (fun a selected => selected = true <-> liquidity_label a = Some "Same Day")
          df (same_day_mask df).
Proof.
  induction df as [|a df IH]; simpl; constructor; [|exact IH].
  destruct (liquidity_label a) as [l|].
  - rewrite String.eqb_eq. split; [intros -> | intros Heq; injection Heq]; auto.
  - split; discriminate.
Qed.

(** The mask of a sector has one entry per asset, true exactly for the
    assets of that sector. *)
Lemma sector_mask_selects (df : DataFrame num) (s : string) :
  Forall2 (fun a selected => selected = true <-> sector a = s) df (sector_mask df s).
Proof.
  induction df as [|a df IH]; simpl; constructor; [|exact IH].
  apply String.eqb_eq.
Qed.
End BuilderFacts.

(** C4.  The constraint list of a problem over [N] assets is made of
    exactly: the lower and the upper box bound, each a vector of [N]
    entries (the assets' minimum and maximum weights); sum of weights
    [== 1]; the two sides of the duration band; the rating ceiling against
    [MAX_RATING_NUM]; the Same Day floor against [MIN_SAME_DAY]; and for
    every entry [(s, (lo, hi))] of the sector bounds the cap
    [sum(w[sector == s]) <= hi], with [sum(w[sector == s]) >= lo] only when
    [lo > 0].  Nothing else is in the list: its length is 7 plus one per
    sector entry plus one per positive lower cap.  The weights a floor or a
    cap sums are given by a mask with one entry per asset: that of the Same
    Day floor selects exactly the assets whose liquidity label is
    "Same Day", that of a sector exactly the assets whose sector is that
    sector's name. *)
Theorem build_constraints_exact {num : Type} `{NumPy num}
    (cfg : Config num) (df : DataFrame num)
    (sb : option (list (string * (num * num)))) (db : option (num * num)) :
  n_vars (build_problem cfg df sb db) = List.length df
  /\ List.length (map asset_level_min_weight df) = List.length df
  /\ List.length (map asset_level_max_weight df) = List.length df
  /\ (forall c : constraint num,
        In c (subject_to (build_problem cfg df sb db)) <->
        c = CLower (map asset_level_min_weight df)
        \/ c = CUpper (map asset_level_max_weight df)
        \/ c = CScalar ESum EqTo (of_int 1)
        \/ c = CScalar (EDot (map duration df)) Ge (fst (effective_duration cfg db))
        \/ c = CScalar (EDot (map duration df)) Le (snd (effective_duration cfg db))
        \/ c = CScalar (EDot (map quality_num df)) Le (MAX_RATING_NUM cfg)
        \/ c = CScalar (ESumMask (same_day_mask df)) Ge (MIN_SAME_DAY cfg)
        \/ exists s lo hi,
             In (s, (lo, hi)) (effective_sector cfg sb)
             /\ (c = CScalar (ESumMask (sector_mask df s)) Le hi
                 \/ (nltb (of_int 0) lo = true
                     /\ c = CScalar (ESumMask (sector_mask df s)) Ge lo)))
  /\ List.length (subject_to (build_problem cfg df sb db))
     = (7 + List.length (effective_sector cfg sb)
          + positive_floors (effective_sector cfg sb))%nat
  /\ Forall2 (fun a selected =>
                selected = true <-> liquidity_label a = Some "Same Day")
             df (same_day_mask df)
  /\ (forall s : string,
        Forall2 (fun a selected => selected = true <-> sector a = s)
                df (sector_mask df s)).
Proof.
  split; [reflexivity|].
  split; [apply length_map|].
  split; [apply length_map|].
  match goal with
  | |- ?members /\ ?count /\ _ =>
      enough (Hlist : members /\ count);
      [ destruct Hlist as [Hmembers Hcount];
        split; [exact Hmembers|]; split; [exact Hcount|];
        split; [apply same_day_mask_selects | apply sector_mask_selects]
      | ]
  end.
  simpl subject_to. rewrite build_constraints_split. split.
  - intros c. rewrite in_app_iff, in_flat_map. split.
    + intros [Hbase | [item [Hitem Hc]]].
      * simpl in Hbase.
        repeat (destruct Hbase as [Hbase | Hbase]; [symmetry in Hbase; tauto|]).
        contradiction.
      * destruct item as [s [lo hi]].
        do 7 right. exists s, lo, hi. split; [exact Hitem|].
        unfold add_sector in Hc. simpl in Hc.
        destruct (nltb (of_int 0) lo) eqn:Hlo; simpl in Hc.
        -- destruct Hc as [Hc | [Hc | []]]; [right | left]; auto.
        -- destruct Hc as [Hc | []]; left; auto.
    + intros Hc.
      repeat (destruct Hc as [Hc | Hc]; [left; subst c; simpl; tauto|]).
      destruct Hc as (s & lo & hi & Hitem & Hc).
      right. exists (s, (lo, hi)). split; [exact Hitem|].
      unfold add_sector; simpl.
      destruct Hc as [Hc | [Hlo Hc]]; subst c.
      * destruct (nltb (of_int 0) lo); simpl; tauto.
      * rewrite Hlo. simpl. tauto.
  - rewrite length_app, sector_constraints_length. simpl. lia.
Qed.

(* ================================================================== *)
(** * What a call can override *)

Lemma build_constraints_fixed_entries {num : Type} `{NumPy num}
    (cfg : Config num) (df : DataFrame num)
    (sb : option (list (string * (num * num)))) (db : option (num * num)) :
  nth_error (build_constraints cfg df sb db) 5
  = Some (CScalar (EDot (map quality_num df)) Le (MAX_RATING_NUM cfg))
  /\ nth_error (build_constraints cfg df sb db) 6
     = Some (CScalar (ESumMask (same_day_mask df)) Ge (MIN_SAME_DAY cfg)).
Proof. rewrite build_constraints_split. split; reflexivity. Qed.

(** C5, as stated, fails for the rating ceiling and the Same Day floor: with
    the constants of config.py no choice of the call's arguments makes the
    ceiling anything but 5, or the floor anything but 0.20. *)
Lemma rating_ceiling_and_floor_not_overridable :
  ~ (exists sb db bound,
        nth_error (build_constraints Sample.config_py Sample.universe sb db) 5
        = Some (CScalar (EDot (map quality_num Sample.universe)) Le bound)
        /\ PrimFloat.eqb bound 5%float = false)
  /\ ~ (exists sb db bound,
        nth_error (build_constraints Sample.config_py Sample.universe sb db) 6
        = Some (CScalar (ESumMask (same_day_mask Sample.universe)) Ge bound)
        /\ PrimFloat.eqb bound 0.20%float = false).
Proof.
  split; intros (sb & db & bound & Hnth & Hneq);
    destruct (build_constraints_fixed_entries Sample.config_py Sample.universe sb db)
      as [H5 H6].
  - rewrite H5 in Hnth. injection Hnth as Hb. subst bound.
    vm_compute in Hneq. discriminate Hneq.
  - rewrite H6 in Hnth. injection Hnth as Hb. subst bound.
    vm_compute in Hneq. discriminate Hneq.
Qed.

(** C5, amended.  A call can override the sector bounds, the duration
    bounds and the solver identifier: a given [sector_bounds] (or
    [duration_bounds]) builds the constraints that the defaults build under
    a configuration holding it in place of [SECTOR_BOUNDS] (or
    [DURATION_BOUNDS]), an omitted one uses the configured constant, and the
    solver looked up is the one named, "ECOS" when none is.  The rating
    ceiling and the Same Day floor are the configured [MAX_RATING_NUM] and
    [MIN_SAME_DAY] in every call. *)
Theorem call_overrides_sector_duration_solver {num : Type} `{NumPy num}
    (cp_getattr : string -> option cp_object)
    (prob_solve : Problem num -> cp_object -> solve_outcome num)
    (cfg : Config num) (df : DataFrame num) :
  (forall sb db,
      build_constraints cfg df (Some sb) db
      = build_constraints
          (mkConfig sb (DURATION_BOUNDS cfg) (MIN_SAME_DAY cfg) (MAX_RATING_NUM cfg))
          df None db)
  /\ (forall sb db,
      build_constraints cfg df sb (Some db)
      = build_constraints
          (mkConfig (SECTOR_BOUNDS cfg) db (MIN_SAME_DAY cfg) (MAX_RATING_NUM cfg))
          df sb None)
  /\ effective_sector cfg None = SECTOR_BOUNDS cfg
  /\ effective_duration cfg None = DURATION_BOUNDS cfg
  /\ (forall sb db solver,
      build_and_solve cp_getattr prob_solve cfg df sb db solver
      = match cp_getattr solver with
        | Some chosen => extract df (prob_solve (build_problem cfg df sb db) chosen)
        | None => inl (AttributeError solver)
        end)
  /\ build_and_solve_defaults cp_getattr prob_solve cfg df
     = build_and_solve cp_getattr prob_solve cfg df None None "ECOS"
  /\ (forall sb db,
      nth_error (build_constraints cfg df sb db) 5
      = Some (CScalar (EDot (map quality_num df)) Le (MAX_RATING_NUM cfg))
      /\ nth_error (build_constraints cfg df sb db) 6
         = Some (CScalar (ESumMask (same_day_mask df)) Ge (MIN_SAME_DAY cfg))).
Proof.
  repeat split; try reflexivity.
  - intros sb db solver. unfold build_and_solve, choose_solver.
    destruct (cp_getattr solver); reflexivity.
  - apply build_constraints_fixed_entries.
  - apply build_constraints_fixed_entries.
Qed.

(* ================================================================== *)
(** * Loading the universe *)

(** C6, as stated, fails: a sheet with a liquidity tier that the key table
    does not list and a sector that the configuration does not name is
    loaded without an error; the asset's label is missing, and the builder
    leaves the asset out of the Same Day floor and of every sector sum. *)
Lemma load_assets_accepts_unmapped_values :
  let df := load_assets Sample.sheet ["AAA"; "AA"] [1; 2]%float
                        [1; 2; 3]%Z ["Same Day"; "Next Day"; "T+2"] in
  map sector df = ["TSY"; "Muni"]
  /\ map liquidity_label df = [Some "Same Day"; None]
  /\ same_day_mask df = [true; false]
  /\ map (fun item => sector_mask df (fst item)) (SECTOR_BOUNDS Sample.config_py)
     = [[true; false]; [false; false]; [false; false]; [false; false]; [false; false]].
Proof. vm_compute. repeat split; reflexivity. Qed.

Lemma dict_get_none_same_day {num : Type} (df : DataFrame num) (i : nat) (a : Asset num) :
  nth_error df i = Some a ->
  liquidity_label a = None ->
  nth_error (same_day_mask df) i = Some false.
Proof.
  intros Hi Hl. unfold same_day_mask.
  rewrite nth_error_map, Hi. simpl. now rewrite Hl.
Qed.

Lemma sector_mask_other {num : Type} (df : DataFrame num) (i : nat) (a : Asset num)
    (s : string) :
  nth_error df i = Some a ->
  sector a <> s ->
  nth_error (sector_mask df s) i = Some false.
Proof.
  intros Hi Hs. unfold sector_mask.
  rewrite nth_error_map, Hi. simpl. f_equal. now apply String.eqb_neq.
Qed.

(** C6, amended.  [load_assets] raises nothing for an unmapped value: it
    returns one asset per sheet row, copies the sector as it is, and gives
    an asset whose liquidity tier is not a key of the table a missing
    label.  The constraint builder then counts an asset with a missing
    label outside the Same Day floor, and an asset whose sector differs
    from a configured key outside that key's sector sum. *)
Theorem load_assets_maps_without_validation {num : Type} `{NumPy num}
    (sheet : list (SheetRow num))
    (credit_quality : list string) (numeric : list num)
    (liquidity_tier : list Z) (translation : list string) :
  let df := load_assets sheet credit_quality numeric liquidity_tier translation in
  List.length df = List.length sheet
  /\ map sector df = map sheet_sector sheet
  /\ map liquidity_label df
     = map (fun r => dict_get Z.eqb (dict_of_zip Z.eqb liquidity_tier translation)
                              (sheet_liquidity_tier r)) sheet
  /\ (forall i a, nth_error df i = Some a -> liquidity_label a = None ->
                  nth_error (same_day_mask df) i = Some false)
  /\ (forall i a s, nth_error df i = Some a -> sector a <> s ->
                    nth_error (sector_mask df s) i = Some false).
Proof.
  cbv zeta. unfold load_assets.
  split; [apply length_map|].
  split; [rewrite map_map; reflexivity|].
  split; [rewrite map_map; reflexivity|].
  split.
  - intros i a. apply dict_get_none_same_day.
  - intros i a s. apply sector_mask_other.
Qed.

Lemma load_assets_maps_without_validation_witness :
  let df := load_assets Sample.sheet ["AAA"; "AA"] [1; 2]%float
                        [1; 2; 3]%Z ["Same Day"; "Next Day"; "T+2"] in
  nth_error (same_day_mask df) 1 = Some false
  /\ nth_error (sector_mask df "TSY") 1 = Some false.
Proof.
  cbv zeta.
  pose proof (load_assets_maps_without_validation
                Sample.sheet ["AAA"; "AA"] [1; 2]%float
                [1; 2; 3]%Z ["Same Day"; "Next Day"; "T+2"]) as Hload.
  cbv zeta in Hload.
  destruct Hload as (_ & _ & _ & Hliq & Hsec).
  split.
  - apply (Hliq 1%nat (mkAsset "Muni" 0.05%float 4%float 2%float None 0%float 1%float)).
    + reflexivity.
    + reflexivity.
  - apply (Hsec 1%nat (mkAsset "Muni" 0.05%float 4%float 2%float None 0%float 1%float)).
    + reflexivity.
    + discriminate.
Defined.

(* ================================================================== *)
(** * Diagnostics and the outcome of a solve *)

Section SolveFacts.
Context {num : Type} `{NumPy num}.
Variable cp_getattr : string -> option cp_object.
Variable prob_solve : Problem num -> cp_object -> solve_outcome num.
Variable cfg : Config num.


Lemma dot_other_length (a b : list num) :
  List.length a <> List.length b -> dot a b = None.
Proof.
  intros Hlen. unfold dot.
  destruct (Nat.eqb (List.length a) (List.length b)) eqn:E; [|reflexivity].
  apply Nat.eqb_eq in E. contradiction.
Qed.


Lemma diagnostics_other_length (df : DataFrame num) (weights : list num) :
  List.length weights <> List.length df ->
  diagnostics (map yield df) (map duration df) (map quality_num df) weights
  = inl ValueError.
Proof.
  intros Hlen. unfold diagnostics.
  rewrite dot_other_length by (rewrite length_map; auto). reflexivity.
Qed.

(** A result with weights comes from a value of the backend and from
    nowhere else. *)
Lemma extract_inr (df : DataFrame num) (o : solve_outcome num)
    (w : list num) (d : Diag num) :
  extract df o = inr (w, d) ->
  exists st value,
    o = Returns st (Some value)
    /\ w = map round10 value
    /\ List.length w = List.length df
    /\ diagnostics (map yield df) (map duration df) (map quality_num df) w = inr d.
Proof.
  unfold extract. destruct o as [e | st [value|]]; try discriminate.
  destruct (diagnostics _ _ _ (map round10 value)) as [e | diag] eqn:Hd;
    try discriminate.
  intros Heq. injection Heq as Hw Hdiag. subst w d.
  exists st, value. repeat split; auto.
  destruct (Nat.eq_dec (List.length (map round10 value)) (List.length df))
    as [Hlen | Hlen]; [exact Hlen|].
  rewrite diagnostics_other_length in Hd by exact Hlen. discriminate.
Qed.

Lemma build_and_solve_inr (df : DataFrame num)
    (sb : option (list (string * (num * num)))) (db : option (num * num))
    (solver : string) (w : list num) (d : Diag num) :
  build_and_solve cp_getattr prob_solve cfg df sb db solver = inr (w, d) ->
  exists chosen st value,
    cp_getattr solver = Some chosen
    /\ prob_solve (build_problem cfg df sb db) chosen = Returns st (Some value)
    /\ w = map round10 value
    /\ List.length w = List.length df
    /\ diagnostics (map yield df) (map duration df) (map quality_num df) w = inr d.
Proof.
  unfold build_and_solve, choose_solver.
  destruct (cp_getattr solver) as [chosen|]; [|discriminate].
  intros Hex. apply extract_inr in Hex.
  destruct Hex as (st & value & Ho & Hrest).
  exists chosen, st, value. auto.
Qed.
End SolveFacts.






(* ================================================================== *)
(** * Failures of a solve *)

(** C2, as stated, fails: a backend that reports "infeasible" and one that
    reports "unbounded" make [build_and_solve] raise the same [TypeError]
    (rounding the missing [w.value]); neither condition is told apart. *)
Lemma infeasible_and_unbounded_raise_same_error :
  build_and_solve Sample.cvxpy_attrs Sample.infeasible_backend Sample.config_py
                  Sample.universe None None "ECOS"
  = inl TypeError
  /\ build_and_solve Sample.cvxpy_attrs Sample.unbounded_backend Sample.config_py
                     Sample.universe None None "ECOS"
     = inl TypeError.
Proof. split; reflexivity. Qed.

(** C2, amended.  When the solve call returns without a value, whatever
    status it reports (infeasible, unbounded, or any other),
    [build_and_solve] raises one and the same [TypeError]; an exception
    raised inside the solve call is passed on unchanged.  In neither case,
    nor in any other, does a failed solve return weights: the weights of a
    result are the backend's value rounded to 10 decimals, entry by entry,
    one per asset. *)
Theorem failed_solve_raises_and_returns_no_weights {num : Type} `{NumPy num}
    (cp_getattr : string -> option cp_object)
    (prob_solve : Problem num -> cp_object -> solve_outcome num)
    (cfg : Config num) (df : DataFrame num)
    (sb : option (list (string * (num * num)))) (db : option (num * num))
    (solver : string) (chosen : cp_object) :
  cp_getattr solver = Some chosen ->
  (forall st,
      prob_solve (build_problem cfg df sb db) chosen = Returns st None ->
      build_and_solve cp_getattr prob_solve cfg df sb db solver = inl TypeError)
  /\ (forall e,
      prob_solve (build_problem cfg df sb db) chosen = Raises e ->
      build_and_solve cp_getattr prob_solve cfg df sb db solver = inl e)
  /\ (forall w d,
      build_and_solve cp_getattr prob_solve cfg df sb db solver = inr (w, d) ->
      exists st value,
        prob_solve (build_problem cfg df sb db) chosen = Returns st (Some value)
        /\ w = map round10 value
        /\ List.length w = List.length df).
Proof.
  intros Hchosen. repeat split.
  - intros st Hsolve. unfold build_and_solve, choose_solver.
    rewrite Hchosen, Hsolve. reflexivity.
  - intros e Hsolve. unfold build_and_solve, choose_solver.
    rewrite Hchosen, Hsolve. reflexivity.
  - intros w d Hres. apply build_and_solve_inr in Hres.
    destruct Hres as (chosen' & st & value & Hc & Hsolve & Hw & Hlen & _).
    rewrite Hchosen in Hc. injection Hc as <-.
    exists st, value. auto.
Qed.

Lemma failed_solve_raises_and_returns_no_weights_witness :
  build_and_solve Sample.cvxpy_attrs Sample.infeasible_backend Sample.config_py
                  Sample.universe None None "ECOS"
  = inl TypeError.
Proof.
  apply (proj1 (failed_solve_raises_and_returns_no_weights
                  Sample.cvxpy_attrs Sample.infeasible_backend Sample.config_py
                  Sample.universe None None "ECOS" (SolverConstant "ECOS")
                  eq_refl) INFEASIBLE).
  reflexivity.
Defined.

(* ================================================================== *)
(** * Choosing the solver *)

(** C3, as stated, fails: "Variable" names no LP backend, yet it is an
    attribute of the cvxpy module (model.py calls [cp.Variable]), so the
    lookup succeeds and the class is handed to the solve call; the error
    that comes back is the one the solve call raises on that object. *)
Lemma non_solver_attribute_reaches_solve_call :
  Sample.cvxpy_attrs "Variable" = Some (OtherAttribute "Variable")
  /\ build_and_solve Sample.cvxpy_attrs Sample.strict_backend Sample.config_py
                     Sample.universe None None "Variable"
     = inl (SolverError (OtherAttribute "Variable")).
Proof. split; reflexivity. Qed.

(** C3, amended.  A solver identifier that is not an attribute of the cvxpy
    module makes [build_and_solve] fail with an [AttributeError] that names
    it, whatever the backend would do: no solve call is made and no default
    backend is used.  An identifier that names an attribute, a solver or
    not, is accepted, and the solve call receives that attribute and no
    other. *)
Theorem unknown_solver_name_raises_attribute_error {num : Type} `{NumPy num}
    (cp_getattr : string -> option cp_object)
    (cfg : Config num) (df : DataFrame num)
    (sb : option (list (string * (num * num)))) (db : option (num * num))
    (solver : string) :
  (cp_getattr solver = None ->
     forall prob_solve : Problem num -> cp_object -> solve_outcome num,
       build_and_solve cp_getattr prob_solve cfg df sb db solver
       = inl (AttributeError solver))
  /\ (forall chosen, cp_getattr solver = Some chosen ->
     forall prob_solve : Problem num -> cp_object -> solve_outcome num,
       build_and_solve cp_getattr prob_solve cfg df sb db solver
       = extract df (prob_solve (build_problem cfg df sb db) chosen)).
Proof.
  split.
  - intros Hnone prob_solve. unfold build_and_solve, choose_solver.
    now rewrite Hnone.
  - intros chosen Hsome prob_solve. unfold build_and_solve, choose_solver.
    now rewrite Hsome.
Qed.

Lemma unknown_solver_name_raises_attribute_error_witness :
  build_and_solve Sample.cvxpy_attrs Sample.strict_backend Sample.config_py
                  Sample.universe None None "NOT_A_SOLVER"
  = inl (AttributeError "NOT_A_SOLVER").
Proof.
  apply (proj1 (unknown_solver_name_raises_attribute_error
                  Sample.cvxpy_attrs Sample.config_py Sample.universe
                  None None "NOT_A_SOLVER")).
  reflexivity.
Defined.

(* ================================================================== *)
(** * Scenario labels *)

Lemma string_length_app (s t : string) :
  String.length (s ++ t)%string = (String.length s + String.length t)%nat.
Proof. induction s as [|c s IH]; simpl; [reflexivity | now rewrite IH]. Qed.

Lemma string_app_inv_tail (s1 s2 t : string) :
  (s1 ++ t)%string = (s2 ++ t)%string -> s1 = s2.
Proof.
  revert s2. induction s1 as [|c s1 IH]; intros [|c2 s2] Heq; simpl in Heq.
  - reflexivity.
  - apply (f_equal String.length) in Heq. simpl in Heq.
    rewrite string_length_app in Heq. lia.
  - apply (f_equal String.length) in Heq. simpl in Heq.
    rewrite string_length_app in Heq. lia.
  - injection Heq as Hc Hrest. f_equal; auto.
Qed.

Lemma string_of_uint_inj (d1 d2 : Decimal.uint) :
  d1 <> Decimal.Nil -> d2 <> Decimal.Nil ->
  NilZero.string_of_uint d1 = NilZero.string_of_uint d2 -> d1 = d2.
Proof.
  intros H1 H2 Heq.
  apply (f_equal NilZero.uint_of_string) in Heq.
  rewrite !NilZero.usu in Heq by assumption.
  now injection Heq.
Qed.

Lemma to_int_digits_nonnil (z : Z) (d : Decimal.uint) :
  Z.to_int z = Decimal.Pos d \/ Z.to_int z = Decimal.Neg d -> d <> Decimal.Nil.
Proof.
  destruct z as [|p|p]; simpl; intros [Hd | Hd]; try discriminate;
    injection Hd as <-; try discriminate; apply DecimalPos.Unsigned.to_uint_nonnil.
Qed.

(** Two shocks with one label are one shock. *)
Lemma shock_label_inj (a b : Z) : shock_label a = shock_label b -> a = b.
Proof.
  unfold shock_label. intros Heq. apply DecimalZ.to_int_inj.
  destruct (Z.to_int a) as [da|da] eqn:Ha, (Z.to_int b) as [db|db] eqn:Hb;
    simpl in Heq; try discriminate;
    injection Heq as Heq; apply string_app_inv_tail in Heq;
    apply string_of_uint_inj in Heq;
    try (subst; reflexivity);
    eapply to_int_digits_nonnil; eauto.
Qed.

(* ================================================================== *)
(** * The sweep *)

Lemma dict_get_set_same {V : Type} (d : dict (K:=string) (V:=V)) (k : string) (v : V) :
  dict_get String.eqb (dict_set String.eqb d k v) k = Some v.
Proof.
  induction d as [|[k' v'] d IH]; simpl.
  - now rewrite String.eqb_refl.
  - destruct (String.eqb k' k) eqn:E; simpl; rewrite E; auto.
Qed.

Lemma dict_get_set_other {V : Type} (d : dict (K:=string) (V:=V)) (k k' : string) (v : V) :
  k <> k' ->
  dict_get String.eqb (dict_set String.eqb d k v) k' = dict_get String.eqb d k'.
Proof.
  intros Hne. induction d as [|[k0 v0] d IH]; simpl.
  - apply String.eqb_neq in Hne. now rewrite Hne.
  - destruct (String.eqb k0 k) eqn:E; simpl.
    + apply String.eqb_eq in E. subst k0.
      apply String.eqb_neq in Hne. now rewrite Hne.
    + destruct (String.eqb k0 k'); auto.
Qed.

Section SweepFacts.
Context {num : Type} `{NumPy num}.
Variable cp_getattr : string -> option cp_object.
Variable prob_solve : Problem num -> cp_object -> solve_outcome num.
Variable cfg : Config num.

(** When every solve succeeds the loop ends with a dictionary that holds,
    under each shock's label, the diagnostics of that shock's solve, and
    under any other key what it held before. *)
Lemma run_scenarios_from_all_ok (df : DataFrame num) (bps : list Z) :
  forall out : dict (K:=string) (V:=Diag num),
    (forall s, In s bps ->
       exists w d,
         build_and_solve cp_getattr prob_solve cfg (bump_yields df s) None None "ECOS"
         = inr (w, d)) ->
    exists out',
      run_scenarios_from cp_getattr prob_solve cfg out df bps = inr out'
      /\ (forall s, In s bps ->
            exists w d,
              build_and_solve cp_getattr prob_solve cfg (bump_yields df s)
                              None None "ECOS" = inr (w, d)
              /\ dict_get String.eqb out' (shock_label s) = Some d)
      /\ (forall k, (forall s, In s bps -> shock_label s <> k) ->
            dict_get String.eqb out' k = dict_get String.eqb out k).
Proof.
  induction bps as [|s0 rest IH]; intros out Hok; simpl.
  - exists out. repeat split; auto. intros s [].
  - destruct (Hok s0 (or_introl eq_refl)) as (w0 & d0 & Hs0).
    unfold build_and_solve_defaults. rewrite Hs0.
    destruct (IH (dict_set String.eqb out (shock_label s0) d0)) as (out' & Hrun & Hin & Hout).
    { intros s Hs. apply Hok. now right. }
    exists out'. split; [exact Hrun|]. split.
    + intros s [Hs | Hs].
      * subst s. destruct (in_dec Z.eq_dec s0 rest) as [Hrest | Hrest].
        -- now apply Hin.
        -- exists w0, d0. split; [exact Hs0|].
           rewrite Hout.
           ++ apply dict_get_set_same.
           ++ intros s Hs Hlab. apply shock_label_inj in Hlab. now subst s.
      * now apply Hin.
    + intros k Hk. rewrite Hout.
      * apply dict_get_set_other. apply Hk. now left.
      * intros s Hs. apply Hk. now right.
Qed.

(** The first failing solve ends the loop with its exception. *)
Lemma run_scenarios_from_first_failure (df : DataFrame num)
    (before : list Z) (shock : Z) (rest : list Z) (e : py_error) :
  forall out : dict (K:=string) (V:=Diag num),
    (forall s, In s before ->
       exists w d,
         build_and_solve cp_getattr prob_solve cfg (bump_yields df s) None None "ECOS"
         = inr (w, d)) ->
    build_and_solve cp_getattr prob_solve cfg (bump_yields df shock) None None "ECOS"
    = inl e ->
    run_scenarios_from cp_getattr prob_solve cfg out df (before ++ shock :: rest) = inl e.
Proof.
  induction before as [|s0 before IH]; intros out Hok Hfail; simpl.
  - unfold build_and_solve_defaults. now rewrite Hfail.
  - destruct (Hok s0 (or_introl eq_refl)) as (w0 & d0 & Hs0).
    unfold build_and_solve_defaults. rewrite Hs0.
    apply IH; [|exact Hfail]. intros s Hs. apply Hok. now right.
Qed.
End SweepFacts.

(** C8.  [run_scenarios] takes the universe and the shocks (by default
    -100, 0 and +100 bp) and nothing else.  For every shock of the list it
    solves the bumped universe with [build_and_solve]'s defaults (the
    configured sector and duration bounds, "ECOS"), and, the solves
    succeeding, returns a dictionary that holds that solve's diagnostics
    under the shock's label and nothing under any other key.  The label is
    the shock with its sign and "bp", so different shocks have different
    labels: +100 bp is "+100bp", -100 bp is "-100bp". *)
Theorem run_scenarios_records_each_shock {num : Type} `{NumPy num}
    (cp_getattr : string -> option cp_object)
    (prob_solve : Problem num -> cp_object -> solve_outcome num)
    (cfg : Config num) (df : DataFrame num) (bps : list Z) :
  (forall s, In s bps ->
     exists w d,
       build_and_solve cp_getattr prob_solve cfg (bump_yields df s) None None "ECOS"
       = inr (w, d)) ->
  (exists out,
      run_scenarios cp_getattr prob_solve cfg df bps = inr out
      /\ (forall s, In s bps ->
            exists w d,
              build_and_solve cp_getattr prob_solve cfg (bump_yields df s)
                              None None "ECOS" = inr (w, d)
              /\ dict_get String.eqb out (shock_label s) = Some d)
      /\ (forall k, (forall s, In s bps -> shock_label s <> k) ->
            dict_get String.eqb out k = None))
  /\ (forall a b, shock_label a = shock_label b -> a = b)
  /\ shock_label 100 = "+100bp"
  /\ shock_label (-100) = "-100bp"
  /\ shock_label 0 = "+0bp"
  /\ default_bps = [-100; 0; 100]%Z.
Proof.
  intros Hok. split; [|repeat split; try reflexivity; apply shock_label_inj].
  destruct (run_scenarios_from_all_ok cp_getattr prob_solve cfg df bps [] Hok)
    as (out & Hrun & Hin & Hout).
  exists out. split; [exact Hrun|]. split; [exact Hin|].
  intros k Hk. now rewrite Hout.
Qed.

Lemma sample_scenarios_ok :
  forall s, In s default_bps ->
    exists w d,
      build_and_solve Sample.cvxpy_attrs Sample.strict_backend Sample.config_py
                      (bump_yields Sample.universe s) None None "ECOS"
      = inr (w, d).
Proof.
  intros s [<- | [<- | [<- | []]]]; eexists; eexists; vm_compute; reflexivity.
Defined.

Lemma run_scenarios_records_each_shock_witness :
  exists out,
    run_scenarios Sample.cvxpy_attrs Sample.strict_backend Sample.config_py
                  Sample.universe default_bps = inr out
    /\ (forall s, In s default_bps ->
          exists w d,
            build_and_solve Sample.cvxpy_attrs Sample.strict_backend Sample.config_py
                            (bump_yields Sample.universe s) None None "ECOS"
            = inr (w, d)
            /\ dict_get String.eqb out (shock_label s) = Some d)
    /\ (forall k, (forall s, In s default_bps -> shock_label s <> k) ->
          dict_get String.eqb out k = None).
Proof.
  apply (proj1 (run_scenarios_records_each_shock
                  Sample.cvxpy_attrs Sample.strict_backend Sample.config_py
                  Sample.universe default_bps sample_scenarios_ok)).
Defined.

(** C1, as stated, fails: with a backend that breaks down on the -100 bp
    problem only, the solves of 0 bp and of +100 bp would succeed, yet the
    sweep over -100, 0, +100 ends with the exception of the first solve and
    returns no dictionary. *)
Lemma one_failing_scenario_aborts_sweep :
  (exists w d,
      build_and_solve_defaults Sample.cvxpy_attrs Sample.flaky_backend Sample.config_py
                               (bump_yields Sample.universe 0) = inr (w, d))
  /\ (exists w d,
      build_and_solve_defaults Sample.cvxpy_attrs Sample.flaky_backend Sample.config_py
                               (bump_yields Sample.universe 100) = inr (w, d))
  /\ run_scenarios Sample.cvxpy_attrs Sample.flaky_backend Sample.config_py
                   Sample.universe [-100; 0; 100]%Z
     = inl (SolverError (SolverConstant "ECOS")).
Proof.
  split; [eexists; eexists; vm_compute; reflexivity|].
  split; [eexists; eexists; vm_compute; reflexivity|].
  vm_compute. reflexivity.
Qed.

(** C1, amended.  [run_scenarios] solves the shocks in the order of the
    list.  If every solve succeeds, it returns a dictionary with the
    diagnostics of each shock under that shock's label.  A failing solve is
    not isolated: the exception of the first shock whose solve fails leaves
    [run_scenarios], whatever the shocks after it, and no dictionary is
    returned. *)
Theorem run_scenarios_stops_at_first_failure {num : Type} `{NumPy num}
    (cp_getattr : string -> option cp_object)
    (prob_solve : Problem num -> cp_object -> solve_outcome num)
    (cfg : Config num) (df : DataFrame num) (bps : list Z) :
  ((forall s, In s bps ->
      exists w d,
        build_and_solve cp_getattr prob_solve cfg (bump_yields df s) None None "ECOS"
        = inr (w, d)) ->
   exists out,
     run_scenarios cp_getattr prob_solve cfg df bps = inr out
     /\ forall s, In s bps ->
          exists w d,
            build_and_solve cp_getattr prob_solve cfg (bump_yields df s)
                            None None "ECOS" = inr (w, d)
            /\ dict_get String.eqb out (shock_label s) = Some d)
  /\ (forall before shock rest e,
        bps = before ++ shock :: rest ->
        (forall s, In s before ->
           exists w d,
             build_and_solve cp_getattr prob_solve cfg (bump_yields df s)
                             None None "ECOS" = inr (w, d)) ->
        build_and_solve cp_getattr prob_solve cfg (bump_yields df shock)
                        None None "ECOS" = inl e ->
        run_scenarios cp_getattr prob_solve cfg df bps = inl e).
Proof.
  split.
  - intros Hok.
    destruct (run_scenarios_from_all_ok cp_getattr prob_solve cfg df bps [] Hok)
      as (out & Hrun & Hin & _).
    exists out. split; assumption.
  - intros before shock rest e -> Hok Hfail.
    now apply run_scenarios_from_first_failure.
Qed.

Lemma run_scenarios_stops_at_first_failure_witness :
  run_scenarios Sample.cvxpy_attrs Sample.flaky_backend Sample.config_py
                Sample.universe [-100; 0; 100]%Z
  = inl (SolverError (SolverConstant "ECOS")).
Proof.
  apply (proj2 (run_scenarios_stops_at_first_failure
                  Sample.cvxpy_attrs Sample.flaky_backend Sample.config_py
                  Sample.universe [-100; 0; 100]%Z)
               [] (-100)%Z [0; 100]%Z (SolverError (SolverConstant "ECOS"))).
  - reflexivity.
  - intros s [].
  - vm_compute. reflexivity.
Defined.

(* ================================================================== *)
(** * Further properties of the engine *)

Section EngineFacts.
Context {num : Type} `{NumPy num}.




End EngineFacts.


(** In binary64, a number above zero is not at most zero. *)
Lemma float_positive_not_le_zero (x : float) :
  PrimFloat.ltb 0%float x = true -> PrimFloat.leb x 0%float = false.
Proof.
  rewrite ltb_spec, leb_spec.
  replace (Prim2SF 0%float) with (S754_zero false) by reflexivity.
  unfold SFltb, SFleb, SFcompare.
  destruct (Prim2SF x) as [s| s| |s m e]; try destruct s; intros Hlt;
    try reflexivity; discriminate Hlt.
Qed.

Lemma select_no_member {num : Type} (df : DataFrame num) (s : string) (w : list num) :
  (forall a, In a df -> sector a <> s) -> select (sector_mask df s) w = [].
Proof.
  unfold select, sector_mask. revert w.
  induction df as [|a df IH]; intros w Hnone; simpl; [reflexivity|].
  destruct w as [|x w]; simpl; [reflexivity|].
  assert (Ha : String.eqb (sector a) s = false)
    by (apply String.eqb_neq, Hnone; now left).
  rewrite Ha. simpl. apply IH. intros b Hb. apply Hnone. now right.
Qed.

(** X3.  A sector of the bounds with a positive lower cap and no asset of
    the universe in it makes the problem infeasible: no weight vector meets
    the constraints handed to the solver (its sector sum is the empty sum 0,
    which is below the cap). *)
Theorem empty_sector_with_floor_is_infeasible
    (cfg : Config float) (df : DataFrame float)
    (sb : option (list (string * (float * float)))) (db : option (float * float))
    (s : string) (lo hi : float) (w : list float) :
  In (s, (lo, hi)) (effective_sector cfg sb) ->
  PrimFloat.ltb 0%float lo = true ->
  (forall a, In a df -> sector a <> s) ->
  forallb (satisfies w) (build_constraints cfg df sb db) = false.
Proof.
  intros Hin Hlo Hnone.
  destruct (forallb (satisfies w) (build_constraints cfg df sb db)) eqn:Hall;
    [|reflexivity].
  rewrite forallb_forall in Hall.
  specialize (Hall (CScalar (ESumMask (sector_mask df s)) Ge lo)).
  simpl in Hall. rewrite select_no_member in Hall by exact Hnone.
  cbn in Hall. rewrite float_positive_not_le_zero in Hall by exact Hlo.
  symmetry. apply Hall.
  rewrite build_constraints_split. apply in_or_app. right.
  apply in_flat_map. exists (s, (lo, hi)). split; [exact Hin|].
  unfold add_sector. cbn [fst snd].
  change (nltb (of_int 0) lo) with (PrimFloat.ltb 0%float lo).
  rewrite Hlo. simpl. auto.
Qed.

Lemma empty_sector_with_floor_is_infeasible_witness :
  forallb (satisfies [0.5; 0.5]%float)
          (build_constraints Sample.config_py (tl Sample.universe) None None)
  = false.
Proof.
  apply (empty_sector_with_floor_is_infeasible
           Sample.config_py (tl Sample.universe) None None
           "TSY" 0.10%float 1.00%float [0.5; 0.5]%float).
  - simpl. left. reflexivity.
  - reflexivity.
  - intros a [<- | [<- | []]]; discriminate.
Defined.

(* ================================================================== *)
(** * The dashboard's solve *)

Lemma dict_set_fresh {V : Type} (d : dict (K:=string) (V:=V)) (k : string) (v : V) :
  ~ In k (map fst d) -> dict_set String.eqb d k v = d ++ [(k, v)].
Proof.
  induction d as [|[k' v'] d IH]; simpl; intros Hfresh; [reflexivity|].
  destruct (String.eqb k' k) eqn:E.
  - apply String.eqb_eq in E. tauto.
  - rewrite IH by tauto. reflexivity.
Qed.

Lemma caps_user_from {num : Type} (slider : string -> num -> num)
    (items : list (string * (num * num))) :
  forall caps : dict (K:=string) (V:=num),
    NoDup (map fst items) ->
    (forall k, In k (map fst items) -> ~ In k (map fst caps)) ->
    fold_left (fun caps item =>
                 dict_set String.eqb caps (fst item) (slider (fst item) (snd (snd item))))
              items caps
    = caps ++ map (fun item => (fst item, slider (fst item) (snd (snd item)))) items.
Proof.
  induction items as [|item items IH]; intros caps Hnodup Hfresh; simpl.
  - now rewrite app_nil_r.
  - simpl in Hnodup. inversion Hnodup as [|k ks Hk Hks]; subst.
    rewrite dict_set_fresh by (apply Hfresh; now left).
    rewrite IH; [now rewrite <- app_assoc| exact Hks |].
    intros k Hin Hcaps. rewrite map_app, in_app_iff in Hcaps. simpl in Hcaps.
    destruct Hcaps as [Hcaps | [Heq | []]].
    + apply (Hfresh k); [now right | exact Hcaps].
    + subst k. contradiction.
Qed.

Lemma override_sector_upper_caps (df : DataFrame float)
    (caps : list (string * float)) :
  flat_map (add_sector df []) (override_sector caps)
  = map (fun cap => CScalar (ESumMask (sector_mask df (fst cap))) Le (snd cap)) caps.
Proof.
  induction caps as [|cap caps IH]; simpl; [reflexivity|].
  rewrite IH. reflexivity.
Qed.

(** X4.  The dashboard's solve enforces no sector lower cap: with sector
    names that are distinct (as the keys of a dictionary are), the
    constraints it builds are the seven base constraints followed by one
    upper cap per configured sector, at the value of that sector's slider.
    The lower caps of [SECTOR_BOUNDS] play no part. *)
Theorem dashboard_override_drops_lower_caps
    (cfg : Config float) (df : DataFrame float)
    (slider : string -> float -> float) (db : option (float * float)) :
  NoDup (map fst (SECTOR_BOUNDS cfg)) ->
  build_constraints cfg df
    (Some (override_sector (caps_user slider (SECTOR_BOUNDS cfg)))) db
  = base_constraints cfg df (effective_duration cfg db)
    ++ map (fun item =>
              CScalar (ESumMask (sector_mask df (fst item))) Le
                      (slider (fst item) (snd (snd item))))
           (SECTOR_BOUNDS cfg).
Proof.
  intros Hnodup. rewrite build_constraints_split. f_equal.
  unfold effective_sector, caps_user.
  rewrite caps_user_from by (auto; intros k _ []).
  simpl app. rewrite override_sector_upper_caps, map_map. reflexivity.
Qed.

Lemma dashboard_override_drops_lower_caps_witness :
  build_constraints Sample.config_py Sample.universe
    (Some (override_sector (caps_user (fun _ hi => hi) (SECTOR_BOUNDS Sample.config_py))))
    None
  = base_constraints Sample.config_py Sample.universe
                     (effective_duration Sample.config_py None)
    ++ map (fun item =>
              CScalar (ESumMask (sector_mask Sample.universe (fst item))) Le
                      (snd (snd item)))
           (SECTOR_BOUNDS Sample.config_py).
Proof.
  apply (dashboard_override_drops_lower_caps
           Sample.config_py Sample.universe (fun _ hi => hi) None).
  simpl. repeat constructor; simpl; intuition discriminate.
Defined.

(* ================================================================== *)
(** * Further properties of the sweep *)

Lemma dict_set_keys {V : Type} (d : dict (K:=string) (V:=V)) (k : string) (v : V) :
  forall k', In k' (map fst (dict_set String.eqb d k v)) <-> k' = k \/ In k' (map fst d).
Proof.
  intros k'. induction d as [|[k0 v0] d IH]; simpl.
  - intuition.
  - destruct (String.eqb k0 k) eqn:E; simpl.
    + apply String.eqb_eq in E. subst k0. intuition.
    + rewrite IH. intuition.
Qed.

Lemma dict_set_nodup {V : Type} (d : dict (K:=string) (V:=V)) (k : string) (v : V) :
  NoDup (map fst d) -> NoDup (map fst (dict_set String.eqb d k v)).
Proof.
  induction d as [|[k0 v0] d IH]; simpl; intros Hnd.
  - constructor; [intros [] | constructor].
  - inversion Hnd as [|x xs Hx Hxs]; subst.
    destruct (String.eqb k0 k) eqn:E; simpl.
    + constructor; assumption.
    + constructor; [|now apply IH].
      rewrite dict_set_keys. intros [Heq | Hin]; [|contradiction].
      subst k0. rewrite String.eqb_refl in E. discriminate.
Qed.

Lemma dict_set_length {V : Type} (d : dict (K:=string) (V:=V)) (k : string) (v : V) :
  (List.length (dict_set String.eqb d k v) <= S (List.length d))%nat.
Proof.
  induction d as [|[k0 v0] d IH]; simpl; [lia|].
  destruct (String.eqb k0 k); simpl; lia.
Qed.

Section SweepMore.
Context {num : Type} `{NumPy num}.
Variable cp_getattr : string -> option cp_object.
Variable prob_solve : Problem num -> cp_object -> solve_outcome num.
Variable cfg : Config num.

Lemma run_scenarios_from_inr (df : DataFrame num) (bps : list Z) :
  forall out0 out : dict (K:=string) (V:=Diag num),
    run_scenarios_from cp_getattr prob_solve cfg out0 df bps = inr out ->
    forall s, In s bps ->
      exists w d,
        build_and_solve cp_getattr prob_solve cfg (bump_yields df s) None None "ECOS"
        = inr (w, d).
Proof.
  induction bps as [|s0 rest IH]; intros out0 out Hrun s Hin; [destruct Hin|].
  simpl in Hrun. unfold build_and_solve_defaults in Hrun.
  destruct (build_and_solve cp_getattr prob_solve cfg (bump_yields df s0) None None "ECOS")
    as [e | [w0 d0]] eqn:Hs0; [discriminate|].
  destruct Hin as [<- | Hin]; [eauto | eapply IH; eauto].
Qed.

Lemma run_scenarios_from_inl (df : DataFrame num) (bps : list Z) :
  forall (out0 : dict (K:=string) (V:=Diag num)) (e : py_error),
    run_scenarios_from cp_getattr prob_solve cfg out0 df bps = inl e ->
    exists before shock rest,
      bps = before ++ shock :: rest
      /\ (forall s, In s before ->
            exists w d,
              build_and_solve cp_getattr prob_solve cfg (bump_yields df s)
                              None None "ECOS" = inr (w, d))
      /\ build_and_solve cp_getattr prob_solve cfg (bump_yields df shock)
                         None None "ECOS" = inl e.
Proof.
  induction bps as [|s0 rest IH]; intros out0 e Hrun; [discriminate|].
  simpl in Hrun. unfold build_and_solve_defaults in Hrun.
  destruct (build_and_solve cp_getattr prob_solve cfg (bump_yields df s0) None None "ECOS")
    as [e0 | [w0 d0]] eqn:Hs0.
  - injection Hrun as <-. exists [], s0, rest. repeat split; auto. intros s [].
  - apply IH in Hrun. destruct Hrun as (before & shock & rest' & -> & Hok & Hfail).
    exists (s0 :: before), shock, rest'. repeat split; auto.
    intros s [<- | Hin]; eauto.
Qed.

Lemma run_scenarios_from_keys (df : DataFrame num) (bps : list Z) :
  forall out0 out : dict (K:=string) (V:=Diag num),
    run_scenarios_from cp_getattr prob_solve cfg out0 df bps = inr out ->
    NoDup (map fst out0) ->
    NoDup (map fst out)
    /\ (List.length out <= List.length out0 + List.length bps)%nat
    /\ (forall k, In k (map fst out) <->
                  In k (map fst out0) \/ exists s, In s bps /\ k = shock_label s).
Proof.
  induction bps as [|s0 rest IH]; intros out0 out Hrun Hnd; simpl in Hrun.
  - injection Hrun as <-. split; [exact Hnd|]. split; [simpl; lia|].
    intros k. split; [now left|].
    intros [Hk | (s & [] & _)]. exact Hk.
  - unfold build_and_solve_defaults in Hrun.
    destruct (build_and_solve cp_getattr prob_solve cfg (bump_yields df s0) None None "ECOS")
      as [e | [w0 d0]]; [discriminate|].
    apply IH in Hrun; [|now apply dict_set_nodup].
    destruct Hrun as (Hnd' & Hlen & Hkeys).
    split; [exact Hnd'|]. split.
    + pose proof (dict_set_length out0 (shock_label s0) d0). simpl. lia.
    + intros k. rewrite Hkeys, dict_set_keys. split.
      * intros [[-> | Hk] | (s & Hs & ->)]; eauto.
        -- right. exists s0. split; [now left | reflexivity].
        -- right. exists s. split; [now right | reflexivity].
      * intros [Hk | (s & [<- | Hs] & ->)]; eauto.
Qed.

Lemma run_scenarios_from_distinct (df : DataFrame num) (bps : list Z) :
  forall out0 out : dict (K:=string) (V:=Diag num),
    run_scenarios_from cp_getattr prob_solve cfg out0 df bps = inr out ->
    NoDup bps ->
    (forall s, In s bps -> ~ In (shock_label s) (map fst out0)) ->
    exists entries,
      out = out0 ++ entries
      /\ Forall2 (fun s entry =>
                    fst entry = shock_label s
                    /\ exists w,
                         build_and_solve cp_getattr prob_solve cfg (bump_yields df s)
                                         None None "ECOS" = inr (w, snd entry))
                 bps entries.
Proof.
  induction bps as [|s0 rest IH]; intros out0 out Hrun Hnd Hfresh; simpl in Hrun.
  - injection Hrun as <-. exists []. split; [now rewrite app_nil_r | constructor].
  - unfold build_and_solve_defaults in Hrun.
    destruct (build_and_solve cp_getattr prob_solve cfg (bump_yields df s0) None None "ECOS")
      as [e | [w0 d0]] eqn:Hs0; [discriminate|].
    inversion Hnd as [|x xs Hx Hxs]; subst.
    rewrite dict_set_fresh in Hrun by (apply Hfresh; now left).
    apply IH in Hrun; [|exact Hxs|].
    + destruct Hrun as (entries & -> & Hall).
      exists ((shock_label s0, d0) :: entries). split.
      * now rewrite <- app_assoc.
      * constructor; [|exact Hall]. simpl. split; [reflexivity | eauto].
    + intros s Hs Hin. rewrite map_app, in_app_iff in Hin. simpl in Hin.
      destruct Hin as [Hin | [Heq | []]].
      * apply (Hfresh s); [now right | exact Hin].
      * apply shock_label_inj in Heq. subst s. contradiction.
Qed.
End SweepMore.

(** X5.  The dictionary [run_scenarios] returns has each key once, its keys
    are exactly the labels of the shocks, and it has at most as many
    entries as there are shocks (a shock listed twice has one entry). *)
Theorem run_scenarios_one_entry_per_label {num : Type} `{NumPy num}
    (cp_getattr : string -> option cp_object)
    (prob_solve : Problem num -> cp_object -> solve_outcome num)
    (cfg : Config num) (df : DataFrame num) (bps : list Z)
    (out : list (string * Diag num)) :
  run_scenarios cp_getattr prob_solve cfg df bps = inr out ->
  NoDup (map fst out)
  /\ (List.length out <= List.length bps)%nat
  /\ (forall k, In k (map fst out) <-> exists s, In s bps /\ k = shock_label s).
Proof.
  intros Hrun. apply run_scenarios_from_keys in Hrun; [|constructor].
  destruct Hrun as (Hnd & Hlen & Hkeys).
  split; [exact Hnd|]. split; [exact Hlen|].
  intros k. rewrite Hkeys. simpl. tauto.
Qed.

Lemma run_scenarios_one_entry_per_label_witness :
  match run_scenarios Sample.cvxpy_attrs Sample.strict_backend Sample.config_py
                      Sample.universe [100; -100; 100]%Z with
  | inr out => NoDup (map fst out) /\ (List.length out <= 3)%nat
  | inl _ => False
  end.
Proof.
  destruct (run_scenarios Sample.cvxpy_attrs Sample.strict_backend Sample.config_py
                          Sample.universe [100; -100; 100]%Z) as [e | out] eqn:Hrun.
  - vm_compute in Hrun. discriminate Hrun.
  - destruct (run_scenarios_one_entry_per_label _ _ _ _ _ _ Hrun) as (Hnd & Hlen & _).
    split; [exact Hnd | exact Hlen].
Defined.

(** X6.  For shocks that are all different, the dictionary [run_scenarios]
    returns lists the scenarios in the order of the shocks: entry by entry,
    the key is the shock's label and the value the diagnostics of that
    shock's solve. *)
Theorem run_scenarios_distinct_shocks_in_order {num : Type} `{NumPy num}
    (cp_getattr : string -> option cp_object)
    (prob_solve : Problem num -> cp_object -> solve_outcome num)
    (cfg : Config num) (df : DataFrame num) (bps : list Z)
    (out : list (string * Diag num)) :
  NoDup bps ->
  run_scenarios cp_getattr prob_solve cfg df bps = inr out ->
  Forall2 (fun s entry =>
             fst entry = shock_label s
             /\ exists w,
                  build_and_solve cp_getattr prob_solve cfg (bump_yields df s)
                                  None None "ECOS" = inr (w, snd entry))
          bps out.
Proof.
  intros Hnd Hrun.
  apply run_scenarios_from_distinct in Hrun; [|exact Hnd|intros s _ []].
  destruct Hrun as (entries & -> & Hall). exact Hall.
Qed.

Lemma run_scenarios_distinct_shocks_in_order_witness :
  match run_scenarios Sample.cvxpy_attrs Sample.strict_backend Sample.config_py
                      Sample.universe default_bps with
  | inr out => map fst out = map shock_label default_bps
  | inl _ => False
  end.
Proof.
  destruct (run_scenarios Sample.cvxpy_attrs Sample.strict_backend Sample.config_py
                          Sample.universe default_bps) as [e | out] eqn:Hrun.
  - vm_compute in Hrun. discriminate Hrun.
  - assert (Hnd : NoDup default_bps)
      by (repeat constructor; simpl; intuition discriminate).
    pose proof (run_scenarios_distinct_shocks_in_order _ _ _ _ _ _ Hnd Hrun) as Hall.
    clear Hrun Hnd. revert Hall. generalize default_bps as bps.
    induction out as [|entry out IH]; intros bps Hall; inversion Hall; subst; simpl.
    + reflexivity.
    + f_equal; [tauto | now apply IH].
Defined.

(** X7.  What [run_scenarios] returns tells how the solves went: a
    dictionary is returned only if the solve of every shock succeeded, and
    an exception it raises is the exception of the first shock whose solve
    failed, all shocks before it having been solved. *)
Theorem run_scenarios_result_inversion {num : Type} `{NumPy num}
    (cp_getattr : string -> option cp_object)
    (prob_solve : Problem num -> cp_object -> solve_outcome num)
    (cfg : Config num) (df : DataFrame num) (bps : list Z) :
  (forall out,
      run_scenarios cp_getattr prob_solve cfg df bps = inr out ->
      forall s, In s bps ->
        exists w d,
          build_and_solve cp_getattr prob_solve cfg (bump_yields df s) None None "ECOS"
          = inr (w, d))
  /\ (forall e,
      run_scenarios cp_getattr prob_solve cfg df bps = inl e ->
      exists before shock rest,
        bps = before ++ shock :: rest
        /\ (forall s, In s before ->
              exists w d,
                build_and_solve cp_getattr prob_solve cfg (bump_yields df s)
                                None None "ECOS" = inr (w, d))
        /\ build_and_solve cp_getattr prob_solve cfg (bump_yields df shock)
                           None None "ECOS" = inl e).
Proof.
  split.
  - intros out Hrun. eapply run_scenarios_from_inr; eauto.
  - intros e Hrun. eapply run_scenarios_from_inl; eauto.
Qed.

Lemma run_scenarios_result_inversion_witness :
  exists before shock rest,
    [-100; 0; 100]%Z = before ++ shock :: rest
    /\ (forall s, In s before ->
          exists w d,
            build_and_solve Sample.cvxpy_attrs Sample.flaky_backend Sample.config_py
                            (bump_yields Sample.universe s) None None "ECOS"
            = inr (w, d))
    /\ build_and_solve Sample.cvxpy_attrs Sample.flaky_backend Sample.config_py
                       (bump_yields Sample.universe shock) None None "ECOS"
       = inl (SolverError (SolverConstant "ECOS")).
Proof.
  apply (proj2 (run_scenarios_result_inversion
                  Sample.cvxpy_attrs Sample.flaky_backend Sample.config_py
                  Sample.universe [-100; 0; 100]%Z)).
  vm_compute. reflexivity.
Defined.

(* ================================================================== *)
(** * The sweep on the store *)

Section SweepStoreFacts.
Context {num : Type} `{NumPy num}.
Variable cp_getattr : string -> option cp_object.
Variable prob_solve : Problem num -> cp_object -> solve_outcome num.
Variable cfg : Config num.

Lemma run_scenarios_store_from_spec (df : ref) (rows : DataFrame num) (bps : list Z) :
  forall (out0 : dict (K:=string) (V:=Diag num)) (st : store),
    nth_error st df = Some rows ->
    exists added,
      run_scenarios_store_from cp_getattr prob_solve cfg out0 df bps st
      = Some (run_scenarios_from cp_getattr prob_solve cfg out0 rows bps, st ++ added)
      /\ (List.length added <= List.length bps)%nat
      /\ Forall (fun frame => exists s, In s bps /\ frame = bump_yields rows s) added.
Proof.
  induction bps as [|s0 rest IH]; intros out0 st Hdf; simpl.
  - exists []. rewrite app_nil_r. repeat split; auto.
  - rewrite (bump_yields_store_eq st df rows s0 Hdf).
    rewrite nth_error_app2 by lia. rewrite Nat.sub_diag. simpl.
    destruct (build_and_solve_defaults cp_getattr prob_solve cfg (bump_yields rows s0))
      as [e | [w0 d0]].
    + exists [bump_yields rows s0]. repeat split; simpl; [lia|].
      constructor; [|constructor]. exists s0. auto.
    + destruct (IH (dict_set String.eqb out0 (shock_label s0) d0)
                   (st ++ [bump_yields rows s0])) as (added & Hrun & Hlen & Hall).
      { rewrite nth_error_app1; [exact Hdf|].
        apply nth_error_Some. rewrite Hdf. discriminate. }
      exists (bump_yields rows s0 :: added).
      rewrite Hrun, <- app_assoc. repeat split; simpl; [lia|].
      constructor; [exists s0; auto|].
      eapply Forall_impl; [|exact Hall].
      intros frame (s & Hs & ->). exists s. auto.
Qed.
End SweepStoreFacts.

(** X8.  Run on frames as objects, the sweep returns what [run_scenarios]
    computes from the rows of the base frame, and it leaves every frame
    that existed before the call, the base frame among them, as it was: it
    only adds frames, at most one per shock, each the base rows bumped by a
    shock of the list. *)
Theorem run_scenarios_store_keeps_base {num : Type} `{NumPy num}
    (cp_getattr : string -> option cp_object)
    (prob_solve : Problem num -> cp_object -> solve_outcome num)
    (cfg : Config num) (df : ref) (rows : DataFrame num) (bps : list Z) (st : store) :
  nth_error st df = Some rows ->
  exists added,
    run_scenarios_store cp_getattr prob_solve cfg df bps st
    = Some (run_scenarios cp_getattr prob_solve cfg rows bps, st ++ added)
    /\ (List.length added <= List.length bps)%nat
    /\ Forall (fun frame => exists s, In s bps /\ frame = bump_yields rows s) added
    /\ (forall r old, nth_error st r = Some old -> nth_error (st ++ added) r = Some old).
Proof.
  intros Hdf.
  destruct (run_scenarios_store_from_spec cp_getattr prob_solve cfg df rows bps [] st Hdf)
    as (added & Hrun & Hlen & Hall).
  exists added. repeat split; auto.
  intros r old Hr. rewrite nth_error_app1; [exact Hr|].
  apply nth_error_Some. rewrite Hr. discriminate.
Qed.

Lemma run_scenarios_store_keeps_base_witness :
  exists added,
    run_scenarios_store Sample.cvxpy_attrs Sample.strict_backend Sample.config_py
                        0 default_bps [Sample.universe]
    = Some (run_scenarios Sample.cvxpy_attrs Sample.strict_backend Sample.config_py
                          Sample.universe default_bps,
            [Sample.universe] ++ added)
    /\ (List.length added <= List.length default_bps)%nat
    /\ Forall (fun frame =>
                 exists s, In s default_bps /\ frame = bump_yields Sample.universe s)
              added
    /\ (forall r old, nth_error [Sample.universe] r = Some old ->
                      nth_error ([Sample.universe] ++ added) r = Some old).
Proof.
  apply (run_scenarios_store_keeps_base
           Sample.cvxpy_attrs Sample.strict_backend Sample.config_py
           0%nat Sample.universe default_bps [Sample.universe]).
  reflexivity.
Defined.

(* ================================================================== *)
(** * The key tables of [load_assets] *)

Section DictFacts.
Context {K V : Type} (keqb : K -> K -> bool).
Hypothesis keqb_eq : forall a b, keqb a b = true <-> a = b.

Lemma dict_get_set (d : dict (K:=K) (V:=V)) (k k' : K) (v : V) :
  dict_get keqb (dict_set keqb d k v) k'
  = if keqb k k' then Some v else dict_get keqb d k'.
Proof.
  induction d as [|[k0 v0] d IH]; simpl; [reflexivity|].
  destruct (keqb k0 k) eqn:E; simpl.
  - apply keqb_eq in E. subst k0. destruct (keqb k k'); reflexivity.
  - rewrite IH. destruct (keqb k0 k') eqn:E'; [|reflexivity].
    destruct (keqb k k') eqn:E2; [|reflexivity].
    apply keqb_eq in E', E2. subst k0 k'.
    assert (Hkk : keqb k k = true) by now apply keqb_eq.
    rewrite Hkk in E. discriminate E.
Qed.

Lemma find_app_last (p : K * V -> bool) (l : list (K * V)) (x : K * V) :
  find p (l ++ [x])
  = match find p l with
    | Some y => Some y
    | None => if p x then Some x else None
    end.
Proof.
  induction l as [|y l IH]; simpl; [reflexivity|].
  destruct (p y); [reflexivity | exact IH].
Qed.

(** Looking a key up in a dictionary filled pair by pair finds the value of
    the last pair with that key. *)
Lemma dict_get_fold_set (pairs : list (K * V)) (k : K) :
  forall d : dict (K:=K) (V:=V),
    dict_get keqb (fold_left (fun d kv => dict_set keqb d (fst kv) (snd kv)) pairs d) k
    = match find (fun kv => keqb (fst kv) k) (rev pairs) with
      | Some kv => Some (snd kv)
      | None => dict_get keqb d k
      end.
Proof.
  induction pairs as [|[k0 v0] pairs IH]; intros d; simpl; [reflexivity|].
  rewrite IH, find_app_last. simpl.
  destruct (find (fun kv => keqb (fst kv) k) (rev pairs)); [reflexivity|].
  rewrite dict_get_set. destruct (keqb k0 k); reflexivity.
Qed.

Lemma dict_get_of_zip (keys : list K) (values : list V) (k : K) :
  dict_get keqb (dict_of_zip keqb keys values) k
  = option_map snd (find (fun kv => keqb (fst kv) k) (rev (combine keys values))).
Proof.
  unfold dict_of_zip. rewrite dict_get_fold_set.
  destruct (find _ _); reflexivity.
Qed.
End DictFacts.

(** X9.  [load_assets] keeps the rows in order and copies sector, yield,
    duration and the weight bounds.  An asset's liquidity label is the
    translation in the last row of the key table whose tier is the asset's
    tier, and missing if there is none; its quality number is the number in
    the last row whose credit quality is the asset's, and NaN if there is
    none.  Rows of a key table beyond its shorter column do not count. *)
Theorem load_assets_uses_last_key_row {num : Type} `{NumPy num}
    (sheet : list (SheetRow num))
    (credit_quality : list string) (numeric : list num)
    (liquidity_tier : list Z) (translation : list string) :
  Forall2
    (fun r a =>
       sector a = sheet_sector r
       /\ yield a = sheet_yield r
       /\ duration a = sheet_duration r
       /\ asset_level_min_weight a = sheet_min_weight r
       /\ asset_level_max_weight a = sheet_max_weight r
       /\ liquidity_label a
          = option_map snd
              (find (fun kv => Z.eqb (fst kv) (sheet_liquidity_tier r))
                    (rev (combine liquidity_tier translation)))
       /\ quality_num a
          = match find (fun kv => String.eqb (fst kv) (sheet_quality r))
                       (rev (combine credit_quality numeric)) with
            | Some kv => snd kv
            | None => nan
            end)
    sheet
    (load_assets sheet credit_quality numeric liquidity_tier translation).
Proof.
  unfold load_assets.
  induction sheet as [|r sheet IH]; simpl; constructor; [|exact IH].
  simpl. repeat split.
  - apply (dict_get_of_zip Z.eqb Z.eqb_eq).
  - rewrite (dict_get_of_zip String.eqb String.eqb_eq).
    destruct (find _ _); reflexivity.
Qed.

(* ================================================================== *)
(** * The command line *)

Lemma combine_same_length {A B : Type} (l : list A) (l' : list B) :
  List.length l' = List.length l ->
  map fst (combine l l') = l /\ map snd (combine l l') = l'.
Proof.
  revert l'. induction l as [|a l IH]; intros [|b l'] Hlen; simpl in *;
    try discriminate; auto.
  injection Hlen as Hlen. destruct (IH l' Hlen) as [-> ->]. auto.
Qed.

Section CliFacts.
Context {num : Type} `{NumPy num}.
Variable DEFAULT_XLS : string.
Variable path_exists : string -> bool.
Variable read_workbook : string -> option (Workbook num).
Variable write_excel : string -> list (Asset num * num) -> bool.
Variable cp_getattr : string -> option cp_object.
Variable prob_solve : Problem num -> cp_object -> solve_outcome num.
Variable cfg : Config num.

Lemma export_write (a : Args) (sheet : list (Asset num * num))
    (printed : list (event num)) (file : string) (written : list (Asset num * num)) :
  (forall f s, ~ In (WriteExcel f s) printed) ->
  In (WriteExcel file written) (fst (export write_excel a sheet printed)) ->
  snd (export write_excel a sheet printed) = Finished
  /\ file = out a /\ written = sheet.
Proof.
  intros Hprinted. unfold export.
  destruct (write_excel (out a) sheet); simpl.
  - rewrite in_app_iff. simpl.
    intros [Hin | [Heq | [Heq | []]]]; try discriminate.
    + now apply Hprinted in Hin.
    + injection Heq as <- <-. auto.
  - intros Hin. now apply Hprinted in Hin.
Qed.
End CliFacts.

(** X10.  [main] writes the output workbook only at the very end of a run in
    which every step succeeded: if a sheet is written, then the input
    workbook existed and was read, the base solve succeeded, with
    [--scenario] every scenario solve succeeded too, the file is the one
    named by [--out], its rows are the loaded assets in order, each with
    the weight the base solve gave it, and [main] ends normally.  In
    particular a failing scenario leaves no file. *)
Theorem main_writes_only_after_every_solve {num : Type} `{NumPy num}
    (DEFAULT_XLS : string) (path_exists : string -> bool)
    (read_workbook : string -> option (Workbook num))
    (write_excel : string -> list (Asset num * num) -> bool)
    (cp_getattr : string -> option cp_object)
    (prob_solve : Problem num -> cp_object -> solve_outcome num)
    (cfg : Config num) (a : Args) (file : string) (written : list (Asset num * num)) :
  In (WriteExcel file written)
     (fst (main DEFAULT_XLS path_exists read_workbook write_excel
                cp_getattr prob_solve cfg a)) ->
  snd (main DEFAULT_XLS path_exists read_workbook write_excel
            cp_getattr prob_solve cfg a) = Finished
  /\ file = out a
  /\ path_exists (resolve_xls DEFAULT_XLS a) = true
  /\ exists wb weights diag,
       read_workbook (resolve_xls DEFAULT_XLS a) = Some wb
       /\ build_and_solve_defaults cp_getattr prob_solve cfg
            (load_assets (sample_data wb) (key_credit_quality wb) (key_numeric wb)
                         (key_liquidity_tier wb) (key_translation wb))
          = inr (weights, diag)
       /\ map fst written
          = load_assets (sample_data wb) (key_credit_quality wb) (key_numeric wb)
                        (key_liquidity_tier wb) (key_translation wb)
       /\ map snd written = weights
       /\ (scenario a = true ->
           exists scen,
             run_scenarios cp_getattr prob_solve cfg
               (load_assets (sample_data wb) (key_credit_quality wb) (key_numeric wb)
                            (key_liquidity_tier wb) (key_translation wb))
               default_bps = inr scen).
Proof.
  unfold main.
  destruct (path_exists (resolve_xls DEFAULT_XLS a)) eqn:Hexists; simpl;
    [|intros []].
  destruct (read_workbook (resolve_xls DEFAULT_XLS a)) as [wb|] eqn:Hread;
    [|intros []].
  set (df := load_assets (sample_data wb) (key_credit_quality wb) (key_numeric wb)
                         (key_liquidity_tier wb) (key_translation wb)).
  destruct (build_and_solve_defaults cp_getattr prob_solve cfg df)
    as [e | [weights diag]] eqn:Hbase; [intros []|].
  destruct (Nat.eqb (List.length weights) (List.length df)) eqn:Hlen; simpl;
    [|intros []].
  apply Nat.eqb_eq in Hlen.
  destruct (combine_same_length df weights Hlen) as [Hfst Hsnd].
  destruct (scenario a) eqn:Hscen.
  - destruct (run_scenarios cp_getattr prob_solve cfg df default_bps)
      as [e | scen] eqn:Hsweep.
    + simpl. intros [Hin | []]. discriminate Hin.
    + intros Hin. apply export_write in Hin.
      * destruct Hin as (Hend & -> & ->).
        split; [exact Hend|]. split; [reflexivity|]. split; [reflexivity|].
        exists wb, weights, diag. repeat split; eauto.
      * intros f s [Hin' | [Hin' | []]]; discriminate Hin'.
  - intros Hin. apply export_write in Hin.
    + destruct Hin as (Hend & -> & ->).
      split; [exact Hend|]. split; [reflexivity|]. split; [reflexivity|].
      exists wb, weights, diag. repeat split; auto. discriminate.
    + intros f s [Hin' | []]. discriminate Hin'.
Qed.

Lemma main_writes_only_after_every_solve_witness :
  snd CliSample.run = Finished
  /\ map snd (combine (load_assets Sample.sheet ["AAA"; "AA"] [1; 2]%float
                                   [1; 2; 3]%Z ["Same Day"; "Next Day"; "T+2"])
                      [0.5; 0.5]%float)
     = [0.5; 0.5]%float.
Proof.
  assert (Hin : In (WriteExcel "optimized_portfolio.xlsx"
                      (combine (load_assets Sample.sheet ["AAA"; "AA"] [1; 2]%float
                                            [1; 2; 3]%Z ["Same Day"; "Next Day"; "T+2"])
                               [0.5; 0.5]%float))
                   (fst CliSample.run)).
  { vm_compute. right. left. reflexivity. }
  destruct (main_writes_only_after_every_solve _ _ _ _ _ _ _ _ _ _ Hin)
    as (Hend & _ & _ & _).
  split; [exact Hend | reflexivity].
Defined.

(* ================================================================== *)
(** * Column names *)

Lemma lower_char_not_upper (c : ascii) : is_upper (lower_char c) = false.
Proof.
  destruct c as [[] [] [] [] [] [] [] []]; reflexivity.
Qed.

Lemma lower_char_keeps_non_space (c : ascii) :
  is_space c = false -> is_space (lower_char c) = false.
Proof.
  destruct c as [[] [] [] [] [] [] [] []]; intros Hc; try reflexivity; discriminate Hc.
Qed.

Lemma string_map_id (f : ascii -> ascii) (s : string) :
  string_forall (fun c => Ascii.eqb (f c) c) s = true -> string_map f s = s.
Proof.
  induction s as [|c s IH]; simpl; [reflexivity|].
  intros Hall. apply andb_true_iff in Hall. destruct Hall as [Hc Hs].
  apply Ascii.eqb_eq in Hc. rewrite Hc, IH by exact Hs. reflexivity.
Qed.

Lemma string_forall_map (p : ascii -> bool) (f : ascii -> ascii) (s : string) :
  (forall c, p (f c) = true) -> string_forall p (string_map f s) = true.
Proof.
  intros Hp. induction s as [|c s IH]; simpl; [reflexivity|].
  now rewrite Hp, IH.
Qed.

Lemma lstrip_idem (s : string) : lstrip (lstrip s) = lstrip s.
Proof.
  induction s as [|c s IH]; simpl; [reflexivity|].
  destruct (is_space c) eqn:E; [exact IH|]. simpl. now rewrite E.
Qed.

Lemma rstrip_idem (s : string) : rstrip (rstrip s) = rstrip s.
Proof.
  induction s as [|c s IH]; simpl; [reflexivity|].
  destruct (rstrip s) as [|c' kept] eqn:Hr.
  - destruct (is_space c) eqn:E; simpl; [reflexivity|]. now rewrite E.
  - simpl. simpl in IH. rewrite IH. reflexivity.
Qed.

(** Stripping on the left keeps a string stripped on the right. *)
Lemma rstrip_lstrip (s : string) : rstrip s = s -> rstrip (lstrip s) = lstrip s.
Proof.
  induction s as [|c s IH]; simpl; [reflexivity|].
  intros Hfix. destruct (is_space c) eqn:E.
  - apply IH. destruct (rstrip s) as [|c' kept]; [discriminate Hfix|].
    now injection Hfix.
  - simpl. rewrite E. exact Hfix.
Qed.

Lemma strip_stripped (s : string) :
  lstrip (strip s) = strip s /\ rstrip (strip s) = strip s.
Proof.
  unfold strip. split; [apply lstrip_idem|].
  apply rstrip_lstrip, rstrip_idem.
Qed.

Lemma lstrip_map_fixed (f : ascii -> ascii) (s : string) :
  (forall c, is_space c = false -> is_space (f c) = false) ->
  lstrip s = s -> lstrip (string_map f s) = string_map f s.
Proof.
  intros Hf. destruct s as [|c s]; simpl; [reflexivity|].
  destruct (is_space c) eqn:E.
  - intros Hfix. apply (f_equal String.length) in Hfix. simpl in Hfix.
    exfalso. clear -Hfix.
    assert (Hle : forall t, (String.length (lstrip t) <= String.length t)%nat).
    { induction t as [|c t IH]; simpl; [lia|].
      destruct (is_space c); simpl; lia. }
    specialize (Hle s). lia.
  - intros _. now rewrite (Hf c E).
Qed.

Lemma rstrip_map_fixed (f : ascii -> ascii) (s : string) :
  (forall c, is_space c = false -> is_space (f c) = false) ->
  rstrip s = s -> rstrip (string_map f s) = string_map f s.
Proof.
  intros Hf. induction s as [|c s IH]; simpl; [reflexivity|].
  destruct (rstrip s) as [|c' kept] eqn:Hr.
  - destruct (is_space c) eqn:E; [discriminate|].
    intros Hfix. injection Hfix as <-. simpl. now rewrite (Hf c E).
  - intros Hfix. injection Hfix as Hs. rewrite IH by exact Hs.
    rewrite <- Hs. reflexivity.
Qed.

Lemma string_forall_impl (p q : ascii -> bool) (s : string) :
  (forall c, p c = true -> q c = true) ->
  string_forall p s = true -> string_forall q s = true.
Proof.
  intros Hpq. induction s as [|c s IH]; simpl; [reflexivity|].
  intros Hall. apply andb_true_iff in Hall. destruct Hall as [Hc Hs].
  now rewrite (Hpq c Hc), IH.
Qed.

Lemma normalize_column_plain (s : string) :
  string_forall plain_char (normalize_column s) = true.
Proof.
  unfold normalize_column, replace_space, lower.
  induction (strip s) as [|c t IH]; simpl; [reflexivity|].
  rewrite IH, andb_true_r. unfold plain_char.
  destruct (Ascii.eqb (lower_char c) " ") eqn:E.
  - reflexivity.
  - rewrite E, lower_char_not_upper. reflexivity.
Qed.

Lemma normalize_column_stripped (s : string) :
  strip (normalize_column s) = normalize_column s.
Proof.
  assert (Hrepl : forall c, is_space c = false ->
                            is_space (if Ascii.eqb c " " then "_"%char else c) = false).
  { intros c Hc. destruct (Ascii.eqb c " "); [reflexivity | exact Hc]. }
  destruct (strip_stripped s) as [Hl Hr].
  unfold normalize_column, replace_space, lower.
  unfold strip at 1.
  rewrite (rstrip_map_fixed _ _ Hrepl)
    by (apply (rstrip_map_fixed _ _ lower_char_keeps_non_space), Hr).
  apply (lstrip_map_fixed _ _ Hrepl).
  apply (lstrip_map_fixed _ _ lower_char_keeps_non_space), Hl.
Qed.

(** X11.  Normalising an ASCII column name gives a name without a space and
    without a capital letter, with no white space at either end, and
    normalising that name again changes nothing. *)
Theorem normalize_column_idempotent (s : string) :
  string_forall is_ascii_char s = true ->
  string_forall (fun c => negb (Ascii.eqb c " ") && negb (is_upper c))
                (normalize_column s) = true
  /\ strip (normalize_column s) = normalize_column s
  /\ normalize_column (normalize_column s) = normalize_column s.
Proof.
  intros _.
  pose proof (normalize_column_plain s) as Hplain.
  pose proof (normalize_column_stripped s) as Hstrip.
  split; [exact Hplain|]. split; [exact Hstrip|].
  unfold normalize_column at 1. rewrite Hstrip.
  assert (Hlower : lower (normalize_column s) = normalize_column s).
  { apply string_map_id. revert Hplain. apply string_forall_impl.
    intros c Hc. unfold plain_char in Hc. apply andb_true_iff in Hc.
    destruct Hc as [_ Hup]. unfold lower_char.
    destruct (is_upper c); [discriminate Hup | apply Ascii.eqb_refl]. }
  rewrite Hlower. apply string_map_id.
  revert Hplain. apply string_forall_impl.
  intros c Hc. unfold plain_char in Hc. apply andb_true_iff in Hc.
  destruct Hc as [Hsp _].
  destruct (Ascii.eqb c " "); [discriminate Hsp | apply Ascii.eqb_refl].
Qed.

Lemma normalize_column_idempotent_witness :
  normalize_column (normalize_column "  Asset Level Min Weight ")
  = normalize_column "  Asset Level Min Weight ".
Proof.
  apply (normalize_column_idempotent "  Asset Level Min Weight ").
  reflexivity.
Defined.
